(** * caravel/db_engine_specs.py: the database engine compatibility layer

    A shallow embedding of the module [caravel.db_engine_specs]: the static
    classes [BaseEngineSpec] ... [VerticaEngineSpec], their class attributes
    and class methods, the attribute lookup along the inheritance chain, and
    the module-level dictionary [engines].

    Conventions of the embedding.
    - A Python call either returns a value or raises: [result A].
    - A Python [str] is a [string], the UTF-8 encoding of its code points.
    - A [datetime] has natural numbers as fields and, when it is aware, the
      UTC offset its tzinfo gives, in microseconds.
    - A class is a name of the enumeration [pyclass]; what a class body
      binds is given per attribute ([own_engine], [own_time_grains], ...),
      and an attribute is resolved along the method resolution order. *)

From Stdlib Require Import Ascii String NArith ZArith Lia.
From stdpp Require Import base gmap strings list fin_maps.

Local Open Scope N_scope.

(** ** Exceptions and results *)

Inductive exn : Type :=
  | NotImplementedError
  | TypeError
  | NameError
  | KeyError
  | ValueError
  | IndexError
  | AttributeError.

Definition exn_name (e : exn) : string :=
  match e with
  | NotImplementedError => "NotImplementedError"
  | TypeError => "TypeError"
  | NameError => "NameError"
  | KeyError => "KeyError"
  | ValueError => "ValueError"
  | IndexError => "IndexError"
  | AttributeError => "AttributeError"
  end.

Inductive result (A : Type) : Type :=
  | Ok (a : A)
  | Raise (e : exn).

Arguments Ok {A} a.
Arguments Raise {A} e.

Global Instance result_ret : MRet result := fun A a => Ok a.

Global Instance result_bind : MBind result := fun A B k r =>
  match r with
  | Ok a => k a
  | Raise e => Raise e
  end.

Definition returns {A : Type} (r : result A) : Prop := exists a, r = Ok a.

Definition raises {A : Type} (r : result A) (cls_name : string) : Prop :=
  exists e, r = Raise e /\ exn_name e = cls_name.

(** ** The string methods the module uses *)

Module PyStr.

(** [old in s] at the head of [s]. *)
Definition startswith (s old : string) : bool := String.prefix old s.

(** [s.replace(old, new)]: every non-overlapping occurrence of [old],
    scanning from the left.  [skip] counts the characters of a matched
    occurrence still to be dropped. *)
Fixpoint replace_from (old new : string) (skip : nat) (s : string) : string :=
  match s with
  | EmptyString => EmptyString
  | String c s' =>
      match skip with
      | S k => replace_from old new k s'
      | O =>
          if startswith s old
          then new +:+ replace_from old new (Nat.pred (String.length old)) s'
          else String c (replace_from old new O s')
      end
  end.

(** With an empty [old], Python puts [new] before every character and at
    the end. *)
Fixpoint intersperse (new s : string) : string :=
  match s with
  | EmptyString => new
  | String c s' => new +:+ String c (intersperse new s')
  end.

Definition replace (s old new : string) : string :=
  match old with
  | EmptyString => intersperse new s
  | String _ _ => replace_from old new O s
  end.

(** *** [str.upper]

    A [str] is a sequence of code points and [upper()] maps each of them by
    itself, to one or more code points.  [upper_table] lists the code points
    that [upper()] changes, with what it puts for them (the case mappings of
    the Unicode character database 14.0.0 that CPython 3.11 carries); every
    other code point stays.  Strings are kept in UTF-8, so [upper] decodes,
    maps and encodes; bytes that are no UTF-8 stay as they are. *)

Definition upper_table : list (N * list N) :=
  [ (97, [65]); (98, [66]); (99, [67]); (100, [68]); (101, [69]); (102, [70]);
    (103, [71]); (104, [72]); (105, [73]); (106, [74]); (107, [75]);
    (108, [76]); (109, [77]); (110, [78]); (111, [79]); (112, [80]);
    (113, [81]); (114, [82]); (115, [83]); (116, [84]); (117, [85]);
    (118, [86]); (119, [87]); (120, [88]); (121, [89]); (122, [90]);
    (181, [924]); (223, [83; 83]); (224, [192]); (225, [193]); (226, [194]);
    (227, [195]); (228, [196]); (229, [197]); (230, [198]); (231, [199]);
    (232, [200]); (233, [201]); (234, [202]); (235, [203]); (236, [204]);
    (237, [205]); (238, [206]); (239, [207]); (240, [208]); (241, [209]);
    (242, [210]); (243, [211]); (244, [212]); (245, [213]); (246, [214]);
    (248, [216]); (249, [217]); (250, [218]); (251, [219]); (252, [220]);
    (253, [221]); (254, [222]); (255, [376]); (257, [256]); (259, [258]);
    (261, [260]); (263, [262]); (265, [264]); (267, [266]); (269, [268]);
    (271, [270]); (273, [272]); (275, [274]); (277, [276]); (279, [278]);
    (281, [280]); (283, [282]); (285, [284]); (287, [286]); (289, [288]);
    (291, [290]); (293, [292]); (295, [294]); (297, [296]); (299, [298]);
    (301, [300]); (303, [302]); (305, [73]); (307, [306]); (309, [308]);
    (311, [310]); (314, [313]); (316, [315]); (318, [317]); (320, [319]);
    (322, [321]); (324, [323]); (326, [325]); (328, [327]); (329, [700; 78]);
    (331, [330]); (333, [332]); (335, [334]); (337, [336]); (339, [338]);
    (341, [340]); (343, [342]); (345, [344]); (347, [346]); (349, [348]);
    (351, [350]); (353, [352]); (355, [354]); (357, [356]); (359, [358]);
    (361, [360]); (363, [362]); (365, [364]); (367, [366]); (369, [368]);
    (371, [370]); (373, [372]); (375, [374]); (378, [377]); (380, [379]);
    (382, [381]); (383, [83]); (384, [579]); (387, [386]); (389, [388]);
    (392, [391]); (396, [395]); (402, [401]); (405, [502]); (409, [408]);
    (410, [573]); (414, [544]); (417, [416]); (419, [418]); (421, [420]);
    (424, [423]); (429, [428]); (432, [431]); (436, [435]); (438, [437]);
    (441, [440]); (445, [444]); (447, [503]); (453, [452]); (454, [452]);
    (456, [455]); (457, [455]); (459, [458]); (460, [458]); (462, [461]);
    (464, [463]); (466, [465]); (468, [467]); (470, [469]); (472, [471]);
    (474, [473]); (476, [475]); (477, [398]); (479, [478]); (481, [480]);
    (483, [482]); (485, [484]); (487, [486]); (489, [488]); (491, [490]);
    (493, [492]); (495, [494]); (496, [74; 780]); (498, [497]); (499, [497]);
    (501, [500]); (505, [504]); (507, [506]); (509, [508]); (511, [510]);
    (513, [512]); (515, [514]); (517, [516]); (519, [518]); (521, [520]);
    (523, [522]); (525, [524]); (527, [526]); (529, [528]); (531, [530]);
    (533, [532]); (535, [534]); (537, [536]); (539, [538]); (541, [540]);
    (543, [542]); (547, [546]); (549, [548]); (551, [550]); (553, [552]);
    (555, [554]); (557, [556]); (559, [558]); (561, [560]); (563, [562]);
    (572, [571]); (575, [11390]); (576, [11391]); (578, [577]); (583, [582]);
    (585, [584]); (587, [586]); (589, [588]); (591, [590]); (592, [11375]);
    (593, [11373]); (594, [11376]); (595, [385]); (596, [390]); (598, [393]);
    (599, [394]); (601, [399]); (603, [400]); (604, [42923]); (608, [403]);
    (609, [42924]); (611, [404]); (613, [42893]); (614, [42922]);
    (616, [407]); (617, [406]); (618, [42926]); (619, [11362]);
    (620, [42925]); (623, [412]); (625, [11374]); (626, [413]); (629, [415]);
    (637, [11364]); (640, [422]); (642, [42949]); (643, [425]);
    (647, [42929]); (648, [430]); (649, [580]); (650, [433]); (651, [434]);
    (652, [581]); (658, [439]); (669, [42930]); (670, [42928]); (837, [921]);
    (881, [880]); (883, [882]); (887, [886]); (891, [1021]); (892, [1022]);
    (893, [1023]); (912, [921; 776; 769]); (940, [902]); (941, [904]);
    (942, [905]); (943, [906]); (944, [933; 776; 769]); (945, [913]);
    (946, [914]); (947, [915]); (948, [916]); (949, [917]); (950, [918]);
    (951, [919]); (952, [920]); (953, [921]); (954, [922]); (955, [923]);
    (956, [924]); (957, [925]); (958, [926]); (959, [927]); (960, [928]);
    (961, [929]); (962, [931]); (963, [931]); (964, [932]); (965, [933]);
    (966, [934]); (967, [935]); (968, [936]); (969, [937]); (970, [938]);
    (971, [939]); (972, [908]); (973, [910]); (974, [911]); (976, [914]);
    (977, [920]); (981, [934]); (982, [928]); (983, [975]); (985, [984]);
    (987, [986]); (989, [988]); (991, [990]); (993, [992]); (995, [994]);
    (997, [996]); (999, [998]); (1001, [1000]); (1003, [1002]);
    (1005, [1004]); (1007, [1006]); (1008, [922]); (1009, [929]);
    (1010, [1017]); (1011, [895]); (1013, [917]); (1016, [1015]);
    (1019, [1018]); (1072, [1040]); (1073, [1041]); (1074, [1042]);
    (1075, [1043]); (1076, [1044]); (1077, [1045]); (1078, [1046]);
    (1079, [1047]); (1080, [1048]); (1081, [1049]); (1082, [1050]);
    (1083, [1051]); (1084, [1052]); (1085, [1053]); (1086, [1054]);
    (1087, [1055]); (1088, [1056]); (1089, [1057]); (1090, [1058]);
    (1091, [1059]); (1092, [1060]); (1093, [1061]); (1094, [1062]);
    (1095, [1063]); (1096, [1064]); (1097, [1065]); (1098, [1066]);
    (1099, [1067]); (1100, [1068]); (1101, [1069]); (1102, [1070]);
    (1103, [1071]); (1104, [1024]); (1105, [1025]); (1106, [1026]);
    (1107, [1027]); (1108, [1028]); (1109, [1029]); (1110, [1030]);
    (1111, [1031]); (1112, [1032]); (1113, [1033]); (1114, [1034]);
    (1115, [1035]); (1116, [1036]); (1117, [1037]); (1118, [1038]);
    (1119, [1039]); (1121, [1120]); (1123, [1122]); (1125, [1124]);
    (1127, [1126]); (1129, [1128]); (1131, [1130]); (1133, [1132]);
    (1135, [1134]); (1137, [1136]); (1139, [1138]); (1141, [1140]);
    (1143, [1142]); (1145, [1144]); (1147, [1146]); (1149, [1148]);
    (1151, [1150]); (1153, [1152]); (1163, [1162]); (1165, [1164]);
    (1167, [1166]); (1169, [1168]); (1171, [1170]); (1173, [1172]);
    (1175, [1174]); (1177, [1176]); (1179, [1178]); (1181, [1180]);
    (1183, [1182]); (1185, [1184]); (1187, [1186]); (1189, [1188]);
    (1191, [1190]); (1193, [1192]); (1195, [1194]); (1197, [1196]);
    (1199, [1198]); (1201, [1200]); (1203, [1202]); (1205, [1204]);
    (1207, [1206]); (1209, [1208]); (1211, [1210]); (1213, [1212]);
    (1215, [1214]); (1218, [1217]); (1220, [1219]); (1222, [1221]);
    (1224, [1223]); (1226, [1225]); (1228, [1227]); (1230, [1229]);
    (1231, [1216]); (1233, [1232]); (1235, [1234]); (1237, [1236]);
    (1239, [1238]); (1241, [1240]); (1243, [1242]); (1245, [1244]);
    (1247, [1246]); (1249, [1248]); (1251, [1250]); (1253, [1252]);
    (1255, [1254]); (1257, [1256]); (1259, [1258]); (1261, [1260]);
    (1263, [1262]); (1265, [1264]); (1267, [1266]); (1269, [1268]);
    (1271, [1270]); (1273, [1272]); (1275, [1274]); (1277, [1276]);
    (1279, [1278]); (1281, [1280]); (1283, [1282]); (1285, [1284]);
    (1287, [1286]); (1289, [1288]); (1291, [1290]); (1293, [1292]);
    (1295, [1294]); (1297, [1296]); (1299, [1298]); (1301, [1300]);
    (1303, [1302]); (1305, [1304]); (1307, [1306]); (1309, [1308]);
    (1311, [1310]); (1313, [1312]); (1315, [1314]); (1317, [1316]);
    (1319, [1318]); (1321, [1320]); (1323, [1322]); (1325, [1324]);
    (1327, [1326]); (1377, [1329]); (1378, [1330]); (1379, [1331]);
    (1380, [1332]); (1381, [1333]); (1382, [1334]); (1383, [1335]);
    (1384, [1336]); (1385, [1337]); (1386, [1338]); (1387, [1339]);
    (1388, [1340]); (1389, [1341]); (1390, [1342]); (1391, [1343]);
    (1392, [1344]); (1393, [1345]); (1394, [1346]); (1395, [1347]);
    (1396, [1348]); (1397, [1349]); (1398, [1350]); (1399, [1351]);
    (1400, [1352]); (1401, [1353]); (1402, [1354]); (1403, [1355]);
    (1404, [1356]); (1405, [1357]); (1406, [1358]); (1407, [1359]);
    (1408, [1360]); (1409, [1361]); (1410, [1362]); (1411, [1363]);
    (1412, [1364]); (1413, [1365]); (1414, [1366]); (1415, [1333; 1362]);
    (4304, [7312]); (4305, [7313]); (4306, [7314]); (4307, [7315]);
    (4308, [7316]); (4309, [7317]); (4310, [7318]); (4311, [7319]);
    (4312, [7320]); (4313, [7321]); (4314, [7322]); (4315, [7323]);
    (4316, [7324]); (4317, [7325]); (4318, [7326]); (4319, [7327]);
    (4320, [7328]); (4321, [7329]); (4322, [7330]); (4323, [7331]);
    (4324, [7332]); (4325, [7333]); (4326, [7334]); (4327, [7335]);
    (4328, [7336]); (4329, [7337]); (4330, [7338]); (4331, [7339]);
    (4332, [7340]); (4333, [7341]); (4334, [7342]); (4335, [7343]);
    (4336, [7344]); (4337, [7345]); (4338, [7346]); (4339, [7347]);
    (4340, [7348]); (4341, [7349]); (4342, [7350]); (4343, [7351]);
    (4344, [7352]); (4345, [7353]); (4346, [7354]); (4349, [7357]);
    (4350, [7358]); (4351, [7359]); (5112, [5104]); (5113, [5105]);
    (5114, [5106]); (5115, [5107]); (5116, [5108]); (5117, [5109]);
    (7296, [1042]); (7297, [1044]); (7298, [1054]); (7299, [1057]);
    (7300, [1058]); (7301, [1058]); (7302, [1066]); (7303, [1122]);
    (7304, [42570]); (7545, [42877]); (7549, [11363]); (7566, [42950]);
    (7681, [7680]); (7683, [7682]); (7685, [7684]); (7687, [7686]);
    (7689, [7688]); (7691, [7690]); (7693, [7692]); (7695, [7694]);
    (7697, [7696]); (7699, [7698]); (7701, [7700]); (7703, [7702]);
    (7705, [7704]); (7707, [7706]); (7709, [7708]); (7711, [7710]);
    (7713, [7712]); (7715, [7714]); (7717, [7716]); (7719, [7718]);
    (7721, [7720]); (7723, [7722]); (7725, [7724]); (7727, [7726]);
    (7729, [7728]); (7731, [7730]); (7733, [7732]); (7735, [7734]);
    (7737, [7736]); (7739, [7738]); (7741, [7740]); (7743, [7742]);
    (7745, [7744]); (7747, [7746]); (7749, [7748]); (7751, [7750]);
    (7753, [7752]); (7755, [7754]); (7757, [7756]); (7759, [7758]);
    (7761, [7760]); (7763, [7762]); (7765, [7764]); (7767, [7766]);
    (7769, [7768]); (7771, [7770]); (7773, [7772]); (7775, [7774]);
    (7777, [7776]); (7779, [7778]); (7781, [7780]); (7783, [7782]);
    (7785, [7784]); (7787, [7786]); (7789, [7788]); (7791, [7790]);
    (7793, [7792]); (7795, [7794]); (7797, [7796]); (7799, [7798]);
    (7801, [7800]); (7803, [7802]); (7805, [7804]); (7807, [7806]);
    (7809, [7808]); (7811, [7810]); (7813, [7812]); (7815, [7814]);
    (7817, [7816]); (7819, [7818]); (7821, [7820]); (7823, [7822]);
    (7825, [7824]); (7827, [7826]); (7829, [7828]); (7830, [72; 817]);
    (7831, [84; 776]); (7832, [87; 778]); (7833, [89; 778]);
    (7834, [65; 702]); (7835, [7776]); (7841, [7840]); (7843, [7842]);
    (7845, [7844]); (7847, [7846]); (7849, [7848]); (7851, [7850]);
    (7853, [7852]); (7855, [7854]); (7857, [7856]); (7859, [7858]);
    (7861, [7860]); (7863, [7862]); (7865, [7864]); (7867, [7866]);
    (7869, [7868]); (7871, [7870]); (7873, [7872]); (7875, [7874]);
    (7877, [7876]); (7879, [7878]); (7881, [7880]); (7883, [7882]);
    (7885, [7884]); (7887, [7886]); (7889, [7888]); (7891, [7890]);
    (7893, [7892]); (7895, [7894]); (7897, [7896]); (7899, [7898]);
    (7901, [7900]); (7903, [7902]); (7905, [7904]); (7907, [7906]);
    (7909, [7908]); (7911, [7910]); (7913, [7912]); (7915, [7914]);
    (7917, [7916]); (7919, [7918]); (7921, [7920]); (7923, [7922]);
    (7925, [7924]); (7927, [7926]); (7929, [7928]); (7931, [7930]);
    (7933, [7932]); (7935, [7934]); (7936, [7944]); (7937, [7945]);
    (7938, [7946]); (7939, [7947]); (7940, [7948]); (7941, [7949]);
    (7942, [7950]); (7943, [7951]); (7952, [7960]); (7953, [7961]);
    (7954, [7962]); (7955, [7963]); (7956, [7964]); (7957, [7965]);
    (7968, [7976]); (7969, [7977]); (7970, [7978]); (7971, [7979]);
    (7972, [7980]); (7973, [7981]); (7974, [7982]); (7975, [7983]);
    (7984, [7992]); (7985, [7993]); (7986, [7994]); (7987, [7995]);
    (7988, [7996]); (7989, [7997]); (7990, [7998]); (7991, [7999]);
    (8000, [8008]); (8001, [8009]); (8002, [8010]); (8003, [8011]);
    (8004, [8012]); (8005, [8013]); (8016, [933; 787]); (8017, [8025]);
    (8018, [933; 787; 768]); (8019, [8027]); (8020, [933; 787; 769]);
    (8021, [8029]); (8022, [933; 787; 834]); (8023, [8031]); (8032, [8040]);
    (8033, [8041]); (8034, [8042]); (8035, [8043]); (8036, [8044]);
    (8037, [8045]); (8038, [8046]); (8039, [8047]); (8048, [8122]);
    (8049, [8123]); (8050, [8136]); (8051, [8137]); (8052, [8138]);
    (8053, [8139]); (8054, [8154]); (8055, [8155]); (8056, [8184]);
    (8057, [8185]); (8058, [8170]); (8059, [8171]); (8060, [8186]);
    (8061, [8187]); (8064, [7944; 921]); (8065, [7945; 921]);
    (8066, [7946; 921]); (8067, [7947; 921]); (8068, [7948; 921]);
    (8069, [7949; 921]); (8070, [7950; 921]); (8071, [7951; 921]);
    (8072, [7944; 921]); (8073, [7945; 921]); (8074, [7946; 921]);
    (8075, [7947; 921]); (8076, [7948; 921]); (8077, [7949; 921]);
    (8078, [7950; 921]); (8079, [7951; 921]); (8080, [7976; 921]);
    (8081, [7977; 921]); (8082, [7978; 921]); (8083, [7979; 921]);
    (8084, [7980; 921]); (8085, [7981; 921]); (8086, [7982; 921]);
    (8087, [7983; 921]); (8088, [7976; 921]); (8089, [7977; 921]);
    (8090, [7978; 921]); (8091, [7979; 921]); (8092, [7980; 921]);
    (8093, [7981; 921]); (8094, [7982; 921]); (8095, [7983; 921]);
    (8096, [8040; 921]); (8097, [8041; 921]); (8098, [8042; 921]);
    (8099, [8043; 921]); (8100, [8044; 921]); (8101, [8045; 921]);
    (8102, [8046; 921]); (8103, [8047; 921]); (8104, [8040; 921]);
    (8105, [8041; 921]); (8106, [8042; 921]); (8107, [8043; 921]);
    (8108, [8044; 921]); (8109, [8045; 921]); (8110, [8046; 921]);
    (8111, [8047; 921]); (8112, [8120]); (8113, [8121]); (8114, [8122; 921]);
    (8115, [913; 921]); (8116, [902; 921]); (8118, [913; 834]);
    (8119, [913; 834; 921]); (8124, [913; 921]); (8126, [921]);
    (8130, [8138; 921]); (8131, [919; 921]); (8132, [905; 921]);
    (8134, [919; 834]); (8135, [919; 834; 921]); (8140, [919; 921]);
    (8144, [8152]); (8145, [8153]); (8146, [921; 776; 768]);
    (8147, [921; 776; 769]); (8150, [921; 834]); (8151, [921; 776; 834]);
    (8160, [8168]); (8161, [8169]); (8162, [933; 776; 768]);
    (8163, [933; 776; 769]); (8164, [929; 787]); (8165, [8172]);
    (8166, [933; 834]); (8167, [933; 776; 834]); (8178, [8186; 921]);
    (8179, [937; 921]); (8180, [911; 921]); (8182, [937; 834]);
    (8183, [937; 834; 921]); (8188, [937; 921]); (8526, [8498]);
    (8560, [8544]); (8561, [8545]); (8562, [8546]); (8563, [8547]);
    (8564, [8548]); (8565, [8549]); (8566, [8550]); (8567, [8551]);
    (8568, [8552]); (8569, [8553]); (8570, [8554]); (8571, [8555]);
    (8572, [8556]); (8573, [8557]); (8574, [8558]); (8575, [8559]);
    (8580, [8579]); (9424, [9398]); (9425, [9399]); (9426, [9400]);
    (9427, [9401]); (9428, [9402]); (9429, [9403]); (9430, [9404]);
    (9431, [9405]); (9432, [9406]); (9433, [9407]); (9434, [9408]);
    (9435, [9409]); (9436, [9410]); (9437, [9411]); (9438, [9412]);
    (9439, [9413]); (9440, [9414]); (9441, [9415]); (9442, [9416]);
    (9443, [9417]); (9444, [9418]); (9445, [9419]); (9446, [9420]);
    (9447, [9421]); (9448, [9422]); (9449, [9423]); (11312, [11264]);
    (11313, [11265]); (11314, [11266]); (11315, [11267]); (11316, [11268]);
    (11317, [11269]); (11318, [11270]); (11319, [11271]); (11320, [11272]);
    (11321, [11273]); (11322, [11274]); (11323, [11275]); (11324, [11276]);
    (11325, [11277]); (11326, [11278]); (11327, [11279]); (11328, [11280]);
    (11329, [11281]); (11330, [11282]); (11331, [11283]); (11332, [11284]);
    (11333, [11285]); (11334, [11286]); (11335, [11287]); (11336, [11288]);
    (11337, [11289]); (11338, [11290]); (11339, [11291]); (11340, [11292]);
    (11341, [11293]); (11342, [11294]); (11343, [11295]); (11344, [11296]);
    (11345, [11297]); (11346, [11298]); (11347, [11299]); (11348, [11300]);
    (11349, [11301]); (11350, [11302]); (11351, [11303]); (11352, [11304]);
    (11353, [11305]); (11354, [11306]); (11355, [11307]); (11356, [11308]);
    (11357, [11309]); (11358, [11310]); (11359, [11311]); (11361, [11360]);
    (11365, [570]); (11366, [574]); (11368, [11367]); (11370, [11369]);
    (11372, [11371]); (11379, [11378]); (11382, [11381]); (11393, [11392]);
    (11395, [11394]); (11397, [11396]); (11399, [11398]); (11401, [11400]);
    (11403, [11402]); (11405, [11404]); (11407, [11406]); (11409, [11408]);
    (11411, [11410]); (11413, [11412]); (11415, [11414]); (11417, [11416]);
    (11419, [11418]); (11421, [11420]); (11423, [11422]); (11425, [11424]);
    (11427, [11426]); (11429, [11428]); (11431, [11430]); (11433, [11432]);
    (11435, [11434]); (11437, [11436]); (11439, [11438]); (11441, [11440]);
    (11443, [11442]); (11445, [11444]); (11447, [11446]); (11449, [11448]);
    (11451, [11450]); (11453, [11452]); (11455, [11454]); (11457, [11456]);
    (11459, [11458]); (11461, [11460]); (11463, [11462]); (11465, [11464]);
    (11467, [11466]); (11469, [11468]); (11471, [11470]); (11473, [11472]);
    (11475, [11474]); (11477, [11476]); (11479, [11478]); (11481, [11480]);
    (11483, [11482]); (11485, [11484]); (11487, [11486]); (11489, [11488]);
    (11491, [11490]); (11500, [11499]); (11502, [11501]); (11507, [11506]);
    (11520, [4256]); (11521, [4257]); (11522, [4258]); (11523, [4259]);
    (11524, [4260]); (11525, [4261]); (11526, [4262]); (11527, [4263]);
    (11528, [4264]); (11529, [4265]); (11530, [4266]); (11531, [4267]);
    (11532, [4268]); (11533, [4269]); (11534, [4270]); (11535, [4271]);
    (11536, [4272]); (11537, [4273]); (11538, [4274]); (11539, [4275]);
    (11540, [4276]); (11541, [4277]); (11542, [4278]); (11543, [4279]);
    (11544, [4280]); (11545, [4281]); (11546, [4282]); (11547, [4283]);
    (11548, [4284]); (11549, [4285]); (11550, [4286]); (11551, [4287]);
    (11552, [4288]); (11553, [4289]); (11554, [4290]); (11555, [4291]);
    (11556, [4292]); (11557, [4293]); (11559, [4295]); (11565, [4301]);
    (42561, [42560]); (42563, [42562]); (42565, [42564]); (42567, [42566]);
    (42569, [42568]); (42571, [42570]); (42573, [42572]); (42575, [42574]);
    (42577, [42576]); (42579, [42578]); (42581, [42580]); (42583, [42582]);
    (42585, [42584]); (42587, [42586]); (42589, [42588]); (42591, [42590]);
    (42593, [42592]); (42595, [42594]); (42597, [42596]); (42599, [42598]);
    (42601, [42600]); (42603, [42602]); (42605, [42604]); (42625, [42624]);
    (42627, [42626]); (42629, [42628]); (42631, [42630]); (42633, [42632]);
    (42635, [42634]); (42637, [42636]); (42639, [42638]); (42641, [42640]);
    (42643, [42642]); (42645, [42644]); (42647, [42646]); (42649, [42648]);
    (42651, [42650]); (42787, [42786]); (42789, [42788]); (42791, [42790]);
    (42793, [42792]); (42795, [42794]); (42797, [42796]); (42799, [42798]);
    (42803, [42802]); (42805, [42804]); (42807, [42806]); (42809, [42808]);
    (42811, [42810]); (42813, [42812]); (42815, [42814]); (42817, [42816]);
    (42819, [42818]); (42821, [42820]); (42823, [42822]); (42825, [42824]);
    (42827, [42826]); (42829, [42828]); (42831, [42830]); (42833, [42832]);
    (42835, [42834]); (42837, [42836]); (42839, [42838]); (42841, [42840]);
    (42843, [42842]); (42845, [42844]); (42847, [42846]); (42849, [42848]);
    (42851, [42850]); (42853, [42852]); (42855, [42854]); (42857, [42856]);
    (42859, [42858]); (42861, [42860]); (42863, [42862]); (42874, [42873]);
    (42876, [42875]); (42879, [42878]); (42881, [42880]); (42883, [42882]);
    (42885, [42884]); (42887, [42886]); (42892, [42891]); (42897, [42896]);
    (42899, [42898]); (42900, [42948]); (42903, [42902]); (42905, [42904]);
    (42907, [42906]); (42909, [42908]); (42911, [42910]); (42913, [42912]);
    (42915, [42914]); (42917, [42916]); (42919, [42918]); (42921, [42920]);
    (42933, [42932]); (42935, [42934]); (42937, [42936]); (42939, [42938]);
    (42941, [42940]); (42943, [42942]); (42945, [42944]); (42947, [42946]);
    (42952, [42951]); (42954, [42953]); (42961, [42960]); (42967, [42966]);
    (42969, [42968]); (42998, [42997]); (43859, [42931]); (43888, [5024]);
    (43889, [5025]); (43890, [5026]); (43891, [5027]); (43892, [5028]);
    (43893, [5029]); (43894, [5030]); (43895, [5031]); (43896, [5032]);
    (43897, [5033]); (43898, [5034]); (43899, [5035]); (43900, [5036]);
    (43901, [5037]); (43902, [5038]); (43903, [5039]); (43904, [5040]);
    (43905, [5041]); (43906, [5042]); (43907, [5043]); (43908, [5044]);
    (43909, [5045]); (43910, [5046]); (43911, [5047]); (43912, [5048]);
    (43913, [5049]); (43914, [5050]); (43915, [5051]); (43916, [5052]);
    (43917, [5053]); (43918, [5054]); (43919, [5055]); (43920, [5056]);
    (43921, [5057]); (43922, [5058]); (43923, [5059]); (43924, [5060]);
    (43925, [5061]); (43926, [5062]); (43927, [5063]); (43928, [5064]);
    (43929, [5065]); (43930, [5066]); (43931, [5067]); (43932, [5068]);
    (43933, [5069]); (43934, [5070]); (43935, [5071]); (43936, [5072]);
    (43937, [5073]); (43938, [5074]); (43939, [5075]); (43940, [5076]);
    (43941, [5077]); (43942, [5078]); (43943, [5079]); (43944, [5080]);
    (43945, [5081]); (43946, [5082]); (43947, [5083]); (43948, [5084]);
    (43949, [5085]); (43950, [5086]); (43951, [5087]); (43952, [5088]);
    (43953, [5089]); (43954, [5090]); (43955, [5091]); (43956, [5092]);
    (43957, [5093]); (43958, [5094]); (43959, [5095]); (43960, [5096]);
    (43961, [5097]); (43962, [5098]); (43963, [5099]); (43964, [5100]);
    (43965, [5101]); (43966, [5102]); (43967, [5103]); (64256, [70; 70]);
    (64257, [70; 73]); (64258, [70; 76]); (64259, [70; 70; 73]);
    (64260, [70; 70; 76]); (64261, [83; 84]); (64262, [83; 84]);
    (64275, [1348; 1350]); (64276, [1348; 1333]); (64277, [1348; 1339]);
    (64278, [1358; 1350]); (64279, [1348; 1341]); (65345, [65313]);
    (65346, [65314]); (65347, [65315]); (65348, [65316]); (65349, [65317]);
    (65350, [65318]); (65351, [65319]); (65352, [65320]); (65353, [65321]);
    (65354, [65322]); (65355, [65323]); (65356, [65324]); (65357, [65325]);
    (65358, [65326]); (65359, [65327]); (65360, [65328]); (65361, [65329]);
    (65362, [65330]); (65363, [65331]); (65364, [65332]); (65365, [65333]);
    (65366, [65334]); (65367, [65335]); (65368, [65336]); (65369, [65337]);
    (65370, [65338]); (66600, [66560]); (66601, [66561]); (66602, [66562]);
    (66603, [66563]); (66604, [66564]); (66605, [66565]); (66606, [66566]);
    (66607, [66567]); (66608, [66568]); (66609, [66569]); (66610, [66570]);
    (66611, [66571]); (66612, [66572]); (66613, [66573]); (66614, [66574]);
    (66615, [66575]); (66616, [66576]); (66617, [66577]); (66618, [66578]);
    (66619, [66579]); (66620, [66580]); (66621, [66581]); (66622, [66582]);
    (66623, [66583]); (66624, [66584]); (66625, [66585]); (66626, [66586]);
    (66627, [66587]); (66628, [66588]); (66629, [66589]); (66630, [66590]);
    (66631, [66591]); (66632, [66592]); (66633, [66593]); (66634, [66594]);
    (66635, [66595]); (66636, [66596]); (66637, [66597]); (66638, [66598]);
    (66639, [66599]); (66776, [66736]); (66777, [66737]); (66778, [66738]);
    (66779, [66739]); (66780, [66740]); (66781, [66741]); (66782, [66742]);
    (66783, [66743]); (66784, [66744]); (66785, [66745]); (66786, [66746]);
    (66787, [66747]); (66788, [66748]); (66789, [66749]); (66790, [66750]);
    (66791, [66751]); (66792, [66752]); (66793, [66753]); (66794, [66754]);
    (66795, [66755]); (66796, [66756]); (66797, [66757]); (66798, [66758]);
    (66799, [66759]); (66800, [66760]); (66801, [66761]); (66802, [66762]);
    (66803, [66763]); (66804, [66764]); (66805, [66765]); (66806, [66766]);
    (66807, [66767]); (66808, [66768]); (66809, [66769]); (66810, [66770]);
    (66811, [66771]); (66967, [66928]); (66968, [66929]); (66969, [66930]);
    (66970, [66931]); (66971, [66932]); (66972, [66933]); (66973, [66934]);
    (66974, [66935]); (66975, [66936]); (66976, [66937]); (66977, [66938]);
    (66979, [66940]); (66980, [66941]); (66981, [66942]); (66982, [66943]);
    (66983, [66944]); (66984, [66945]); (66985, [66946]); (66986, [66947]);
    (66987, [66948]); (66988, [66949]); (66989, [66950]); (66990, [66951]);
    (66991, [66952]); (66992, [66953]); (66993, [66954]); (66995, [66956]);
    (66996, [66957]); (66997, [66958]); (66998, [66959]); (66999, [66960]);
    (67000, [66961]); (67001, [66962]); (67003, [66964]); (67004, [66965]);
    (68800, [68736]); (68801, [68737]); (68802, [68738]); (68803, [68739]);
    (68804, [68740]); (68805, [68741]); (68806, [68742]); (68807, [68743]);
    (68808, [68744]); (68809, [68745]); (68810, [68746]); (68811, [68747]);
    (68812, [68748]); (68813, [68749]); (68814, [68750]); (68815, [68751]);
    (68816, [68752]); (68817, [68753]); (68818, [68754]); (68819, [68755]);
    (68820, [68756]); (68821, [68757]); (68822, [68758]); (68823, [68759]);
    (68824, [68760]); (68825, [68761]); (68826, [68762]); (68827, [68763]);
    (68828, [68764]); (68829, [68765]); (68830, [68766]); (68831, [68767]);
    (68832, [68768]); (68833, [68769]); (68834, [68770]); (68835, [68771]);
    (68836, [68772]); (68837, [68773]); (68838, [68774]); (68839, [68775]);
    (68840, [68776]); (68841, [68777]); (68842, [68778]); (68843, [68779]);
    (68844, [68780]); (68845, [68781]); (68846, [68782]); (68847, [68783]);
    (68848, [68784]); (68849, [68785]); (68850, [68786]); (71872, [71840]);
    (71873, [71841]); (71874, [71842]); (71875, [71843]); (71876, [71844]);
    (71877, [71845]); (71878, [71846]); (71879, [71847]); (71880, [71848]);
    (71881, [71849]); (71882, [71850]); (71883, [71851]); (71884, [71852]);
    (71885, [71853]); (71886, [71854]); (71887, [71855]); (71888, [71856]);
    (71889, [71857]); (71890, [71858]); (71891, [71859]); (71892, [71860]);
    (71893, [71861]); (71894, [71862]); (71895, [71863]); (71896, [71864]);
    (71897, [71865]); (71898, [71866]); (71899, [71867]); (71900, [71868]);
    (71901, [71869]); (71902, [71870]); (71903, [71871]); (93792, [93760]);
    (93793, [93761]); (93794, [93762]); (93795, [93763]); (93796, [93764]);
    (93797, [93765]); (93798, [93766]); (93799, [93767]); (93800, [93768]);
    (93801, [93769]); (93802, [93770]); (93803, [93771]); (93804, [93772]);
    (93805, [93773]); (93806, [93774]); (93807, [93775]); (93808, [93776]);
    (93809, [93777]); (93810, [93778]); (93811, [93779]); (93812, [93780]);
    (93813, [93781]); (93814, [93782]); (93815, [93783]); (93816, [93784]);
    (93817, [93785]); (93818, [93786]); (93819, [93787]); (93820, [93788]);
    (93821, [93789]); (93822, [93790]); (93823, [93791]); (125218, [125184]);
    (125219, [125185]); (125220, [125186]); (125221, [125187]);
    (125222, [125188]); (125223, [125189]); (125224, [125190]);
    (125225, [125191]); (125226, [125192]); (125227, [125193]);
    (125228, [125194]); (125229, [125195]); (125230, [125196]);
    (125231, [125197]); (125232, [125198]); (125233, [125199]);
    (125234, [125200]); (125235, [125201]); (125236, [125202]);
    (125237, [125203]); (125238, [125204]); (125239, [125205]);
    (125240, [125206]); (125241, [125207]); (125242, [125208]);
    (125243, [125209]); (125244, [125210]); (125245, [125211]);
    (125246, [125212]); (125247, [125213]); (125248, [125214]);
    (125249, [125215]); (125250, [125216]); (125251, [125217]) ].

Fixpoint table_lookup (n : N) (t : list (N * list N)) : option (list N) :=
  match t with
  | [] => None
  | (k, v) :: t' => if k =? n then Some v else table_lookup n t'
  end.

Definition upper_codepoint (n : N) : list N :=
  match table_lookup n upper_table with
  | Some l => l
  | None => [n]
  end.

Inductive uchar : Type :=
  | CodePoint (n : N)
  | RawByte (b : ascii).

Definition continuation (b : ascii) : bool :=
  let n := N_of_ascii b in ((128 <=? n) && (n <? 192))%bool.

Definition payload (b : ascii) : N := N_of_ascii b - 128.

Fixpoint utf8_decode (s : string) : list uchar :=
  match s with
  | EmptyString => []
  | String b0 s1 =>
      let n0 := N_of_ascii b0 in
      if n0 <? 128 then CodePoint n0 :: utf8_decode s1
      else
        match s1 with
        | EmptyString => [RawByte b0]
        | String b1 s2 =>
            if ((194 <=? n0) && (n0 <? 224) && continuation b1)%bool
            then CodePoint ((n0 - 192) * 64 + payload b1) :: utf8_decode s2
            else
              match s2 with
              | EmptyString => RawByte b0 :: utf8_decode s1
              | String b2 s3 =>
                  let cp3 := (n0 - 224) * 4096 + payload b1 * 64 + payload b2 in
                  if ((224 <=? n0) && (n0 <? 240) && continuation b1
                      && continuation b2 && (2048 <=? cp3)
                      && negb ((55296 <=? cp3) && (cp3 <? 57344)))%bool
                  then CodePoint cp3 :: utf8_decode s3
                  else
                    match s3 with
                    | EmptyString => RawByte b0 :: utf8_decode s1
                    | String b3 s4 =>
                        let cp4 := (n0 - 240) * 262144 + payload b1 * 4096
                                   + payload b2 * 64 + payload b3 in
                        if ((240 <=? n0) && (n0 <? 245) && continuation b1
                            && continuation b2 && continuation b3
                            && (65536 <=? cp4) && (cp4 <? 1114112))%bool
                        then CodePoint cp4 :: utf8_decode s4
                        else RawByte b0 :: utf8_decode s1
                    end
              end
        end
  end.

Definition utf8_encode_codepoint (n : N) : string :=
  if n <? 128 then String (ascii_of_N n) EmptyString
  else if n <? 2048 then
    String (ascii_of_N (192 + n / 64))
      (String (ascii_of_N (128 + n mod 64)) EmptyString)
  else if n <? 65536 then
    String (ascii_of_N (224 + n / 4096))
      (String (ascii_of_N (128 + (n / 64) mod 64))
         (String (ascii_of_N (128 + n mod 64)) EmptyString))
  else
    String (ascii_of_N (240 + n / 262144))
      (String (ascii_of_N (128 + (n / 4096) mod 64))
         (String (ascii_of_N (128 + (n / 64) mod 64))
            (String (ascii_of_N (128 + n mod 64)) EmptyString))).

Fixpoint utf8_encode (l : list N) : string :=
  match l with
  | [] => EmptyString
  | n :: l' => utf8_encode_codepoint n +:+ utf8_encode l'
  end.

Fixpoint upper_uchars (l : list uchar) : string :=
  match l with
  | [] => EmptyString
  | CodePoint n :: l' => utf8_encode (upper_codepoint n) +:+ upper_uchars l'
  | RawByte b :: l' => String b (upper_uchars l')
  end.

Definition upper (s : string) : string := upper_uchars (utf8_decode s).

(** [c in s] for a one-character [c]. *)
Fixpoint contains_char (c : ascii) (s : string) : bool :=
  match s with
  | EmptyString => false
  | String d s' => (Ascii.eqb c d || contains_char c s')%bool
  end.

(** [x in (a, b, ...)] on strings. *)
Definition in_tuple (x : string) (t : list string) : bool :=
  existsb (String.eqb x) t.

(** *** [str.format]

    The replacement fields the module writes are [{}] (the next positional
    argument) and [{name}] (a keyword argument); [{{] and [}}] are the
    escaped braces.  Conversions and format specifications occur nowhere in
    the module and are not part of this model. *)

Inductive fmt_state : Type :=
  | FLit                      (* outside a replacement field *)
  | FOpen                     (* just read a left brace *)
  | FClose                    (* just read a right brace *)
  | FField (name : string).   (* inside a field, name read so far *)

Definition emit (c : ascii) (r : result string) : result string :=
  s ← r; Ok (String c s).

Definition emit_str (v : string) (r : result string) : result string :=
  s ← r; Ok (v +:+ s).

Fixpoint snoc (s : string) (c : ascii) : string :=
  match s with
  | EmptyString => String c EmptyString
  | String d s' => String d (snoc s' c)
  end.

Fixpoint kwarg (name : string) (kwargs : list (string * string)) : option string :=
  match kwargs with
  | [] => None
  | (k, v) :: rest => if String.eqb k name then Some v else kwarg name rest
  end.

Fixpoint format_go (st : fmt_state) (args : list string)
    (kwargs : list (string * string)) (t : string) : result string :=
  match t with
  | EmptyString =>
      match st with
      | FLit => Ok EmptyString
      | _ => Raise ValueError
      end
  | String c t' =>
      match st with
      | FLit =>
          if Ascii.eqb c "{" then format_go FOpen args kwargs t'
          else if Ascii.eqb c "}" then format_go FClose args kwargs t'
          else emit c (format_go FLit args kwargs t')
      | FOpen =>
          if Ascii.eqb c "{" then emit "{" (format_go FLit args kwargs t')
          else if Ascii.eqb c "}" then
            match args with
            | [] => Raise IndexError
            | a :: args' => emit_str a (format_go FLit args' kwargs t')
            end
          else format_go (FField (String c EmptyString)) args kwargs t'
      | FClose =>
          if Ascii.eqb c "}" then emit "}" (format_go FLit args kwargs t')
          else Raise ValueError
      | FField name =>
          if Ascii.eqb c "}" then
            match kwarg name kwargs with
            | None => Raise KeyError
            | Some v => emit_str v (format_go FLit args kwargs t')
            end
          else if Ascii.eqb c "{" then Raise ValueError
          else format_go (FField (snoc name c)) args kwargs t'
      end
  end.

Definition format (t : string) (args : list string)
    (kwargs : list (string * string)) : result string :=
  format_go FLit args kwargs t.

End PyStr.

(** ** Datetimes, [strftime] and [isoformat] *)

(** [utcoffset] is what [d.utcoffset()] gives: [None] for a naive datetime,
    the offset from UTC in microseconds for an aware one. *)
Record datetime : Type := make_datetime {
  year : N;
  month : N;
  day : N;
  hour : N;
  minute : N;
  second : N;
  microsecond : N;
  utcoffset : option Z
}.

(** [datetime(year, month, day, hour, minute, second, microsecond)]: the
    tzinfo argument defaults to [None]. *)
Definition mk_datetime (y m d H M S us : N) : datetime :=
  make_datetime y m d H M S us None.

Module PyDatetime.

Definition is_leap (y : N) : bool :=
  ((y mod 4 =? 0) && (negb (y mod 100 =? 0) || (y mod 400 =? 0)))%bool.

Definition days_in_month (y m : N) : N :=
  if m =? 2 then (if is_leap y then 29 else 28)
  else if (m =? 4) || (m =? 6) || (m =? 9) || (m =? 11) then 30
  else 31.

(** A UTC offset lies strictly between minus and plus one day. *)
Definition valid_offset (off : option Z) : bool :=
  match off with
  | None => true
  | Some o => ((-86400000000 <? o) && (o <? 86400000000))%Z%bool
  end.

(** The ranges the [datetime] constructor and [utcoffset()] enforce. *)
Definition valid (d : datetime) : bool :=
  ((1 <=? year d) && (year d <=? 9999) &&
   (1 <=? month d) && (month d <=? 12) &&
   (1 <=? day d) && (day d <=? days_in_month (year d) (month d)) &&
   (hour d <? 24) && (minute d <? 60) && (second d <? 60) &&
   (microsecond d <? 1000000) && valid_offset (utcoffset d))%bool.

Definition digit (n : N) : ascii := ascii_of_N (48 + n mod 10).

(** Decimal numeral of [n], most significant digit first. *)
Fixpoint decimal_from (fuel : nat) (n : N) (acc : string) : string :=
  match fuel with
  | O => acc
  | S fuel' =>
      let acc' := String (digit n) acc in
      if n / 10 =? 0 then acc' else decimal_from fuel' (n / 10) acc'
  end.

Definition decimal (n : N) : string := decimal_from (S (N.to_nat (N.log2 n))) n EmptyString.

Fixpoint zeros (k : nat) : string :=
  match k with
  | O => EmptyString
  | S k' => String "0" (zeros k')
  end.

(** The C conversion [%0wd]: at least [w] digits, zero-filled. *)
Definition zfill (w : nat) (n : N) : string :=
  let s := decimal n in
  zeros (w - String.length s) +:+ s.

(** [d.strftime('%Y-%m-%d %H:%M:%S')].  [strftime] belongs to the standard
    library, not to this module; it is taken as CPython 3 renders it through
    the C library: [%Y] is the year as a decimal number without any filling
    (three digits for the year 999), and the other directives are
    zero-filled to two digits.  The tzinfo plays no part. *)
Definition strftime_Ymd_HMS (d : datetime) : string :=
  decimal (year d) +:+ "-" +:+ zfill 2 (month d) +:+ "-" +:+ zfill 2 (day d)
    +:+ " " +:+ zfill 2 (hour d) +:+ ":" +:+ zfill 2 (minute d) +:+ ":"
    +:+ zfill 2 (second d).

(** The rendering of a UTC offset in [isoformat]: sign, hours and minutes,
    then the seconds when the offset is not a whole number of minutes, then
    the microseconds when it is not a whole number of seconds; nothing for a
    naive datetime. *)
Definition format_offset (off : option Z) : string :=
  match off with
  | None => EmptyString
  | Some o =>
      let sign := if (o <? 0)%Z then "-" else "+" in
      let a := Z.to_N (Z.abs o) in
      let hh := a / 3600000000 in
      let rest := a mod 3600000000 in
      let mm := rest / 60000000 in
      let ss := rest mod 60000000 in
      sign +:+ zfill 2 hh +:+ ":" +:+ zfill 2 mm
        +:+ (if ss =? 0 then EmptyString
             else ":" +:+ zfill 2 (ss / 1000000)
                  +:+ (if ss mod 1000000 =? 0 then EmptyString
                       else "." +:+ zfill 6 (ss mod 1000000)))
  end.

(** [d.isoformat()]: [YYYY-MM-DDTHH:MM:SS] with a four-digit year, followed
    by [.ffffff] when the microsecond field is not zero, followed by the UTC
    offset when the datetime is aware. *)
Definition isoformat (d : datetime) : string :=
  zfill 4 (year d) +:+ "-" +:+ zfill 2 (month d) +:+ "-" +:+ zfill 2 (day d)
    +:+ "T" +:+ zfill 2 (hour d) +:+ ":" +:+ zfill 2 (minute d) +:+ ":"
    +:+ zfill 2 (second d)
    +:+ (if microsecond d =? 0 then EmptyString
         else "." +:+ zfill 6 (microsecond d))
    +:+ format_offset (utcoffset d).

End PyDatetime.

(** ** Grains *)

(** [flask_babel.lazy_gettext], imported as [_]: the label is carried as the
    message it was built from and is never forced by this module. *)
Inductive lazy_string : Type :=
  | lazy_gettext (msgid : string).

(** [Grain = namedtuple('Grain', 'name label function')] *)
Record Grain : Type := mkGrain {
  name : string;
  label : lazy_string;
  function : string
}.

(** ** Classes *)

Inductive pyclass : Type :=
  | BaseEngineSpec
  | PostgresEngineSpec
  | SqliteEngineSpec
  | MySQLEngineSpec
  | PrestoEngineSpec
  | MssqlEngineSpec
  | RedshiftEngineSpec
  | OracleEngineSpec
  | VerticaEngineSpec.

Global Instance pyclass_eq_dec : EqDecision pyclass.
Proof. solve_decision. Defined.

Definition class_name (c : pyclass) : string :=
  match c with
  | BaseEngineSpec => "BaseEngineSpec"
  | PostgresEngineSpec => "PostgresEngineSpec"
  | SqliteEngineSpec => "SqliteEngineSpec"
  | MySQLEngineSpec => "MySQLEngineSpec"
  | PrestoEngineSpec => "PrestoEngineSpec"
  | MssqlEngineSpec => "MssqlEngineSpec"
  | RedshiftEngineSpec => "RedshiftEngineSpec"
  | OracleEngineSpec => "OracleEngineSpec"
  | VerticaEngineSpec => "VerticaEngineSpec"
  end.

(** The class named in the [class C(B):] header; [None] stands for
    [object]. *)
Definition base_class (c : pyclass) : option pyclass :=
  match c with
  | BaseEngineSpec => None
  | PostgresEngineSpec => Some BaseEngineSpec
  | SqliteEngineSpec => Some BaseEngineSpec
  | MySQLEngineSpec => Some BaseEngineSpec
  | PrestoEngineSpec => Some BaseEngineSpec
  | MssqlEngineSpec => Some BaseEngineSpec
  | RedshiftEngineSpec => Some PostgresEngineSpec
  | OracleEngineSpec => Some PostgresEngineSpec
  | VerticaEngineSpec => Some PostgresEngineSpec
  end.

(** The entries of a resolution order: a class of this module, or the
    builtin [object]. *)
Inductive pytype : Type :=
  | EngineClass (c : pyclass)
  | object.

Global Instance pytype_eq_dec : EqDecision pytype.
Proof. solve_decision. Defined.

(** Method resolution order, [cls.__mro__]; with single inheritance it is
    the chain of base classes up to [object].  The fuel bounds the length of
    the chain. *)
Fixpoint mro_from (fuel : nat) (c : pyclass) : list pytype :=
  EngineClass c ::
    match base_class c with
    | None => [object]
    | Some b =>
        match fuel with
        | O => []
        | S fuel' => mro_from fuel' b
        end
    end.

Definition mro (c : pyclass) : list pytype := mro_from 9 c.

Definition issubclass (c b : pyclass) : bool :=
  bool_decide (EngineClass b ∈ mro c).

(** [getattr(cls, a)], where [own c] is what the body of class [c] binds
    to [a], if anything; [object] binds none of the attributes of this
    module. *)
Fixpoint first_own {A : Type} (own : pyclass -> option A) (l : list pytype) : result A :=
  match l with
  | [] => Raise AttributeError
  | EngineClass c :: l' =>
      match own c with
      | Some a => Ok a
      | None => first_own own l'
      end
  | object :: l' => first_own own l'
  end.

Definition getattr {A : Type} (own : pyclass -> option A) (cls : pyclass) : result A :=
  first_own own (mro cls).

(** ** Module globals and name lookup *)

Inductive gvalue : Type :=
  | VStr (s : string)
  | VEngineClass (c : pyclass)
  | VOtherClass (qualname : string)   (* a class that is no engine spec *)
  | VObject (repr : string).          (* any other object, by its printed form *)

Definition py_str (v : gvalue) : string :=
  match v with
  | VStr s => s
  | VEngineClass c => "<class 'caravel.db_engine_specs." +:+ class_name c +:+ "'>"
  | VOtherClass q => "<class '" +:+ q +:+ "'>"
  | VObject r => r
  end.

(** The names the module body binds, in the order of the source, up to the
    statement that builds [engines]. *)
Definition module_globals_at_load : list (string * gvalue) :=
  [ ("__name__", VStr "caravel.db_engine_specs");
    ("__doc__", VObject "<the module docstring>");
    ("__file__", VObject "<the path of the module>");
    ("__package__", VObject "<the package of the module>");
    ("__builtins__", VObject "<module '__builtin__' (built-in)>");
    ("absolute_import", VObject "_Feature(absolute_import)");
    ("division", VObject "_Feature(division)");
    ("print_function", VObject "_Feature(print_function)");
    ("unicode_literals", VObject "_Feature(unicode_literals)");
    ("inspect", VObject "<module 'inspect'>");
    ("namedtuple", VObject "<function namedtuple>");
    ("_", VObject "<function lazy_gettext>");
    ("Grain", VOtherClass "caravel.db_engine_specs.Grain");
    ("BaseEngineSpec", VEngineClass BaseEngineSpec);
    ("PostgresEngineSpec", VEngineClass PostgresEngineSpec);
    ("SqliteEngineSpec", VEngineClass SqliteEngineSpec);
    ("MySQLEngineSpec", VEngineClass MySQLEngineSpec);
    ("PrestoEngineSpec", VEngineClass PrestoEngineSpec);
    ("MssqlEngineSpec", VEngineClass MssqlEngineSpec);
    ("RedshiftEngineSpec", VEngineClass RedshiftEngineSpec);
    ("OracleEngineSpec", VEngineClass OracleEngineSpec);
    ("VerticaEngineSpec", VEngineClass VerticaEngineSpec) ].

(** The globals once the module is loaded. *)
Definition module_globals : list (string * gvalue) :=
  module_globals_at_load ++ [ ("engines", VObject "<dict engines>") ].

(** The names of the builtins namespace. *)
Definition builtins : list string :=
  [ "abs"; "all"; "any"; "apply"; "ascii"; "basestring"; "bin"; "bool";
    "breakpoint"; "buffer"; "bytearray"; "bytes"; "callable"; "chr";
    "classmethod"; "cmp"; "coerce"; "compile"; "complex"; "copyright";
    "credits"; "delattr"; "dict"; "dir"; "divmod"; "enumerate"; "eval";
    "exec"; "execfile"; "exit"; "file"; "filter"; "float"; "format";
    "frozenset"; "getattr"; "globals"; "hasattr"; "hash"; "help"; "hex";
    "id"; "input"; "int"; "intern"; "isinstance"; "issubclass"; "iter";
    "len"; "license"; "list"; "locals"; "long"; "map"; "max"; "memoryview";
    "min"; "next"; "object"; "oct"; "open"; "ord"; "pow"; "print";
    "property"; "quit"; "range"; "raw_input"; "reduce"; "reload"; "repr";
    "reversed"; "round"; "set"; "setattr"; "slice"; "sorted";
    "staticmethod"; "str"; "sum"; "super"; "tuple"; "type"; "unichr";
    "unicode"; "vars"; "xrange"; "zip"; "__import__"; "__debug__";
    "__doc__"; "__name__"; "__package__";
    "True"; "False"; "None"; "Ellipsis"; "NotImplemented";
    "ArithmeticError"; "AssertionError"; "AttributeError"; "BaseException";
    "BufferError"; "BytesWarning"; "DeprecationWarning"; "EOFError";
    "EnvironmentError"; "Exception"; "FloatingPointError"; "FutureWarning";
    "GeneratorExit"; "IOError"; "ImportError"; "ImportWarning";
    "IndentationError"; "IndexError"; "KeyError"; "KeyboardInterrupt";
    "LookupError"; "MemoryError"; "NameError"; "NotImplementedError";
    "OSError"; "OverflowError"; "PendingDeprecationWarning";
    "ReferenceError"; "RuntimeError"; "RuntimeWarning"; "StandardError";
    "StopIteration"; "SyntaxError"; "SyntaxWarning"; "SystemError";
    "SystemExit"; "TabError"; "TypeError"; "UnboundLocalError";
    "UnicodeDecodeError"; "UnicodeEncodeError"; "UnicodeError";
    "UnicodeTranslateError"; "UnicodeWarning"; "UserWarning"; "ValueError";
    "Warning"; "ZeroDivisionError" ].

Fixpoint assoc {A : Type} (k : string) (l : list (string * A)) : option A :=
  match l with
  | [] => None
  | (k', v) :: l' => if String.eqb k' k then Some v else assoc k l'
  end.

(** Reading a name that the function neither takes as a parameter nor
    assigns: the module globals, then the builtins, else [NameError]. *)
Definition load_global (x : string) : result gvalue :=
  match assoc x module_globals with
  | Some v => Ok v
  | None =>
      if PyStr.in_tuple x builtins
      then Ok (VObject ("<built-in " +:+ x +:+ ">"))
      else Raise NameError
  end.

(** ** Class bodies *)

(** What a class body can bind to [epoch_to_dttm]: a class method, or a
    plain string. *)
Inductive pyattr : Type :=
  | AStr (s : string)
  | AClassMethod (body : pyclass -> result string).

(** [o()] for an attribute [o] read through the class [cls]: a class method
    is bound to [cls]; a string is not callable. *)
Definition call (o : pyattr) (cls : pyclass) : result string :=
  match o with
  | AClassMethod body => body cls
  | AStr _ => Raise TypeError
  end.

(** *** BaseEngineSpec *)

Definition BaseEngineSpec_time_grains : list Grain := [].

Definition BaseEngineSpec_epoch_to_dttm (cls : pyclass) : result string :=
  Raise NotImplementedError.

Definition BaseEngineSpec_extra_table_metadata (cls : pyclass) (table : string)
  : result (gmap string string) := Ok ∅.

Definition BaseEngineSpec_convert_dttm (cls : pyclass) (target_type : string)
    (dttm : datetime) : result string :=
  PyStr.format "'{}'" [PyDatetime.strftime_Ymd_HMS dttm] [].

(** *** PostgresEngineSpec *)

Definition PostgresEngineSpec_time_grains : list Grain :=
  [ mkGrain "Time Column" (lazy_gettext "Time Column") "{col}";
    mkGrain "second" (lazy_gettext "second") "DATE_TRUNC('second', {col})";
    mkGrain "minute" (lazy_gettext "minute") "DATE_TRUNC('minute', {col})";
    mkGrain "hour" (lazy_gettext "hour") "DATE_TRUNC('hour', {col})";
    mkGrain "day" (lazy_gettext "day") "DATE_TRUNC('day', {col})";
    mkGrain "week" (lazy_gettext "week") "DATE_TRUNC('week', {col})";
    mkGrain "month" (lazy_gettext "month") "DATE_TRUNC('month', {col})";
    mkGrain "quarter" (lazy_gettext "quarter") "DATE_TRUNC('quarter', {col})";
    mkGrain "year" (lazy_gettext "year") "DATE_TRUNC('year', {col})" ].

Definition PostgresEngineSpec_epoch_to_dttm (cls : pyclass) : result string :=
  Ok "(timestamp 'epoch' + {col} * interval '1 second')".

Definition PostgresEngineSpec_convert_dttm (cls : pyclass) (target_type : string)
    (dttm : datetime) : result string :=
  PyStr.format "'{}'" [PyDatetime.strftime_Ymd_HMS dttm] [].

(** *** SqliteEngineSpec *)

Definition SqliteEngineSpec_time_grains : list Grain :=
  [ mkGrain "Time Column" (lazy_gettext "Time Column") "{col}";
    mkGrain "day" (lazy_gettext "day") "DATE({col})";
    mkGrain "week" (lazy_gettext "week")
      "DATE({col}, -strftime('%w', {col}) || ' days')";
    mkGrain "month" (lazy_gettext "month")
      "DATE({col}, -strftime('%d', {col}) || ' days')" ].

Definition SqliteEngineSpec_epoch_to_dttm (cls : pyclass) : result string :=
  Ok "datetime({col}, 'unixepoch')".

Definition SqliteEngineSpec_convert_dttm (cls : pyclass) (target_type : string)
    (dttm : datetime) : result string :=
  let iso := PyStr.replace (PyDatetime.isoformat dttm) "T" " " in
  let iso := if negb (PyStr.contains_char "." iso) then iso +:+ ".000000" else iso in
  PyStr.format "'{}'" [iso] [].

(** *** MySQLEngineSpec *)

Definition MySQLEngineSpec_time_grains : list Grain :=
  [ mkGrain "Time Column" (lazy_gettext "Time Column") "{col}";
    mkGrain "second" (lazy_gettext "second")
      ("DATE_ADD(DATE({col}), "
       +:+ "INTERVAL (HOUR({col})*60*60 + MINUTE({col})*60"
       +:+ " + SECOND({col})) SECOND)");
    mkGrain "minute" (lazy_gettext "minute")
      ("DATE_ADD(DATE({col}), "
       +:+ "INTERVAL (HOUR({col})*60 + MINUTE({col})) MINUTE)");
    mkGrain "hour" (lazy_gettext "hour")
      ("DATE_ADD(DATE({col}), "
       +:+ "INTERVAL HOUR({col}) HOUR)");
    mkGrain "day" (lazy_gettext "day") "DATE({col})";
    mkGrain "week" (lazy_gettext "week")
      ("DATE(DATE_SUB({col}, "
       +:+ "INTERVAL DAYOFWEEK({col}) - 1 DAY))");
    mkGrain "month" (lazy_gettext "month")
      ("DATE(DATE_SUB({col}, "
       +:+ "INTERVAL DAYOFMONTH({col}) - 1 DAY))") ].

Definition MySQLEngineSpec_convert_dttm (cls : pyclass) (target_type : string)
    (dttm : datetime) : result string :=
  if PyStr.in_tuple (PyStr.upper target_type) ["DATETIME"; "DATE"]
  then PyStr.format "STR_TO_DATE('{}', '%Y-%m-%d %H:%i:%s')"
         [PyDatetime.strftime_Ymd_HMS dttm] []
  else PyStr.format "'{}'" [PyDatetime.strftime_Ymd_HMS dttm] [].

Definition MySQLEngineSpec_epoch_to_dttm (cls : pyclass) : result string :=
  Ok "from_unixtime({col})".

(** *** PrestoEngineSpec *)

Definition PrestoEngineSpec_time_grains : list Grain :=
  [ mkGrain "Time Column" (lazy_gettext "Time Column") "{col}";
    mkGrain "second" (lazy_gettext "second")
      "date_trunc('second', CAST({col} AS TIMESTAMP))";
    mkGrain "minute" (lazy_gettext "minute")
      "date_trunc('minute', CAST({col} AS TIMESTAMP))";
    mkGrain "hour" (lazy_gettext "hour")
      "date_trunc('hour', CAST({col} AS TIMESTAMP))";
    mkGrain "day" (lazy_gettext "day")
      "date_trunc('day', CAST({col} AS TIMESTAMP))";
    mkGrain "week" (lazy_gettext "week")
      "date_trunc('week', CAST({col} AS TIMESTAMP))";
    mkGrain "month" (lazy_gettext "month")
      "date_trunc('month', CAST({col} AS TIMESTAMP))";
    mkGrain "quarter" (lazy_gettext "quarter")
      "date_trunc('quarter', CAST({col} AS TIMESTAMP))";
    mkGrain "week_ending_saturday" (lazy_gettext "week_ending_saturday")
      ("date_add('day', 5, date_trunc('week', date_add('day', 1, "
       +:+ "CAST({col} AS TIMESTAMP))))");
    mkGrain "week_start_sunday" (lazy_gettext "week_start_sunday")
      ("date_add('day', -1, date_trunc('week', "
       +:+ "date_add('day', 1, CAST({col} AS TIMESTAMP))))") ].

Definition PrestoEngineSpec_convert_dttm (cls : pyclass) (target_type : string)
    (dttm : datetime) : result string :=
  if PyStr.in_tuple (PyStr.upper target_type) ["DATE"; "DATETIME"]
  then PyStr.format "from_iso8601_date('{}')" [PyDatetime.isoformat dttm] []
  else PyStr.format "'{}'" [PyDatetime.strftime_Ymd_HMS dttm] [].

Definition PrestoEngineSpec_epoch_to_dttm (cls : pyclass) : result string :=
  Ok "from_unixtime({col})".

(** *** MssqlEngineSpec *)

(** A plain class attribute, not a method. *)
Definition MssqlEngineSpec_epoch_to_dttm : string :=
  "dateadd(S, {col}, '1970-01-01')".

Definition MssqlEngineSpec_time_grains : list Grain :=
  [ mkGrain "Time Column" (lazy_gettext "Time Column") "{col}";
    mkGrain "second" (lazy_gettext "second")
      ("DATEADD(second, "
       +:+ "DATEDIFF(second, '2000-01-01', {col}), '2000-01-01')");
    mkGrain "minute" (lazy_gettext "minute")
      ("DATEADD(minute, "
       +:+ "DATEDIFF(minute, 0, {col}), 0)");
    mkGrain "5 minute" (lazy_gettext "5 minute")
      ("DATEADD(minute, "
       +:+ "DATEDIFF(minute, 0, {col}) / 5 * 5, 0)");
    mkGrain "half hour" (lazy_gettext "half hour")
      ("DATEADD(minute, "
       +:+ "DATEDIFF(minute, 0, {col}) / 30 * 30, 0)");
    mkGrain "hour" (lazy_gettext "hour")
      ("DATEADD(hour, "
       +:+ "DATEDIFF(hour, 0, {col}), 0)");
    mkGrain "day" (lazy_gettext "day")
      ("DATEADD(day, "
       +:+ "DATEDIFF(day, 0, {col}), 0)");
    mkGrain "week" (lazy_gettext "week")
      ("DATEADD(week, "
       +:+ "DATEDIFF(week, 0, {col}), 0)");
    mkGrain "month" (lazy_gettext "month")
      ("DATEADD(month, "
       +:+ "DATEDIFF(month, 0, {col}), 0)");
    mkGrain "quarter" (lazy_gettext "quarter")
      ("DATEADD(quarter, "
       +:+ "DATEDIFF(quarter, 0, {col}), 0)");
    mkGrain "year" (lazy_gettext "year")
      ("DATEADD(year, "
       +:+ "DATEDIFF(year, 0, {col}), 0)") ].

(** The body reads [iso], which is neither a parameter nor assigned in the
    function. *)
Definition MssqlEngineSpec_convert_dttm (cls : pyclass) (target_type : string)
    (dttm : datetime) : result string :=
  iso ← load_global "iso";
  PyStr.format "CONVERT(DATETIME, '{}', 126)" [py_str iso] [].

(** *** OracleEngineSpec *)

(** The double quote character of the triple-quoted literal. *)
Definition dquote : ascii := ascii_of_N 34.

Definition OracleEngineSpec_convert_dttm (cls : pyclass) (target_type : string)
    (dttm : datetime) : result string :=
  PyStr.format ("TO_TIMESTAMP('{}', 'YYYY-MM-DD" +:+ String dquote "T"
                +:+ String dquote "HH24:MI:SS.ff6')")
    [PyDatetime.isoformat dttm] [].

(** *** BaseEngineSpec.epoch_ms_to_dttm and the class namespaces *)

Definition own_engine (c : pyclass) : option string :=
  match c with
  | BaseEngineSpec => Some "base"
  | PostgresEngineSpec => Some "postgres"
  | SqliteEngineSpec => Some "sqlite"
  | MySQLEngineSpec => Some "mysql"
  | PrestoEngineSpec => Some "presto"
  | MssqlEngineSpec => Some "mssql"
  | RedshiftEngineSpec => Some "redshift"
  | OracleEngineSpec => Some "oracle"
  | VerticaEngineSpec => Some "vertica"
  end.

Definition own_time_grains (c : pyclass) : option (list Grain) :=
  match c with
  | BaseEngineSpec => Some BaseEngineSpec_time_grains
  | PostgresEngineSpec => Some PostgresEngineSpec_time_grains
  | SqliteEngineSpec => Some SqliteEngineSpec_time_grains
  | MySQLEngineSpec => Some MySQLEngineSpec_time_grains
  | PrestoEngineSpec => Some PrestoEngineSpec_time_grains
  | MssqlEngineSpec => Some MssqlEngineSpec_time_grains
  | RedshiftEngineSpec | OracleEngineSpec | VerticaEngineSpec => None
  end.

Definition own_epoch_to_dttm (c : pyclass) : option pyattr :=
  match c with
  | BaseEngineSpec => Some (AClassMethod BaseEngineSpec_epoch_to_dttm)
  | PostgresEngineSpec => Some (AClassMethod PostgresEngineSpec_epoch_to_dttm)
  | SqliteEngineSpec => Some (AClassMethod SqliteEngineSpec_epoch_to_dttm)
  | MySQLEngineSpec => Some (AClassMethod MySQLEngineSpec_epoch_to_dttm)
  | PrestoEngineSpec => Some (AClassMethod PrestoEngineSpec_epoch_to_dttm)
  | MssqlEngineSpec => Some (AStr MssqlEngineSpec_epoch_to_dttm)
  | RedshiftEngineSpec | OracleEngineSpec | VerticaEngineSpec => None
  end.

Definition own_convert_dttm (c : pyclass)
  : option (pyclass -> string -> datetime -> result string) :=
  match c with
  | BaseEngineSpec => Some BaseEngineSpec_convert_dttm
  | PostgresEngineSpec => Some PostgresEngineSpec_convert_dttm
  | SqliteEngineSpec => Some SqliteEngineSpec_convert_dttm
  | MySQLEngineSpec => Some MySQLEngineSpec_convert_dttm
  | PrestoEngineSpec => Some PrestoEngineSpec_convert_dttm
  | MssqlEngineSpec => Some MssqlEngineSpec_convert_dttm
  | OracleEngineSpec => Some OracleEngineSpec_convert_dttm
  | RedshiftEngineSpec | VerticaEngineSpec => None
  end.

Definition own_extra_table_metadata (c : pyclass)
  : option (pyclass -> string -> result (gmap string string)) :=
  match c with
  | BaseEngineSpec => Some BaseEngineSpec_extra_table_metadata
  | _ => None
  end.

(** [cls.epoch_to_dttm().replace('{col}', '({col}/1000.0)')]: the attribute
    is read through [cls], then called. *)
Definition BaseEngineSpec_epoch_ms_to_dttm (cls : pyclass) : result string :=
  o ← getattr own_epoch_to_dttm cls;
  s ← call o cls;
  Ok (PyStr.replace s "{col}" "({col}/1000.0)").

Definition own_epoch_ms_to_dttm (c : pyclass) : option (pyclass -> result string) :=
  match c with
  | BaseEngineSpec => Some BaseEngineSpec_epoch_ms_to_dttm
  | _ => None
  end.

(** ** What a caller sees: [cls.attr] and [cls.method(...)] *)

Definition engine (cls : pyclass) : result string := getattr own_engine cls.

Definition time_grains (cls : pyclass) : result (list Grain) :=
  getattr own_time_grains cls.

Definition epoch_to_dttm (cls : pyclass) : result string :=
  o ← getattr own_epoch_to_dttm cls; call o cls.

Definition epoch_ms_to_dttm (cls : pyclass) : result string :=
  m ← getattr own_epoch_ms_to_dttm cls; m cls.

Definition convert_dttm (cls : pyclass) (target_type : string) (dttm : datetime)
  : result string :=
  m ← getattr own_convert_dttm cls; m cls target_type dttm.

Definition extra_table_metadata (cls : pyclass) (table : string)
  : result (gmap string string) :=
  m ← getattr own_extra_table_metadata cls; m cls table.

(** ** The registry [engines] *)

Definition isclass (v : gvalue) : bool :=
  match v with
  | VEngineClass _ | VOtherClass _ => true
  | _ => false
  end.

(** [inspect.isclass(o) and issubclass(o, BaseEngineSpec)]; gives the class
    when the test passes. *)
Definition engine_spec_class (v : gvalue) : option pyclass :=
  if isclass v then
    match v with
    | VEngineClass c => if issubclass c BaseEngineSpec then Some c else None
    | _ => None
    end
  else None.

(** The pairs [(o.engine, o)] of the comprehension, in the order of
    [globals().values()]. *)
Definition engines_items (globals : list (string * gvalue))
  : result (list (string * pyclass)) :=
  mapM (fun c => k ← engine c; Ok (k, c)) (omap (fun kv => engine_spec_class kv.2) globals).

(** A dict display or comprehension: a later pair replaces an earlier one with
    the same key. *)
Definition dict_of_items (items : list (string * pyclass)) : gmap string pyclass :=
  foldl (fun m kv => <[kv.1 := kv.2]> m) ∅ items.

Definition build_engines : result (gmap string pyclass) :=
  items ← engines_items module_globals_at_load; Ok (dict_of_items items).

Definition engines : gmap string pyclass :=
  match build_engines with
  | Ok m => m
  | Raise _ => ∅
  end.

(** [d[k]] *)
Definition getitem (d : gmap string pyclass) (k : string) : result pyclass :=
  match d !! k with
  | Some c => Ok c
  | None => Raise KeyError
  end.

(** [d.get(k, default)] *)
Definition dict_get (d : gmap string pyclass) (k : string) (default : option pyclass)
  : option pyclass :=
  match d !! k with
  | Some c => Some c
  | None => default
  end.

(** ** Fragments from grains *)

Fixpoint find_grain (n : string) (gs : list Grain) : option Grain :=
  match gs with
  | [] => None
  | g :: gs' => if String.eqb (name g) n then Some g else find_grain n gs'
  end.

(** Modelled from the spec: selecting a grain of an engine's catalog by its
    name and substituting the column expression for the placeholder of its
    template is done by the callers of this module, which are not part of it
    (sections 3, 4.1 and 6 of the specification).  The template is a format
    string with the keyword field [col].  [None]: the catalog has no grain of
    that name, or no fragment is produced. *)
Definition grain_fragment (cls : pyclass) (grain_name col : string) : option string :=
  match time_grains cls with
  | Ok gs =>
      match find_grain grain_name gs with
      | Some g =>
          match PyStr.format (function g) [] [("col", col)] with
          | Ok frag => Some frag
          | Raise _ => None
          end
      | None => None
      end
  | Raise _ => None
  end.

(** ** The rendering the specification describes *)

(** Exactly [w] decimal digits of [n], most significant first. *)
Fixpoint fixed_digits (w : nat) (n : N) : string :=
  match w with
  | O => EmptyString
  | S w' => fixed_digits w' (n / 10) +:+ String (PyDatetime.digit n) EmptyString
  end.

(** ['YYYY-MM-DD HH:MM:SS'] between single quotes. *)
Definition quoted_timestamp (d : datetime) : string :=
  "'" +:+ fixed_digits 4 (year d) +:+ "-" +:+ fixed_digits 2 (month d)
      +:+ "-" +:+ fixed_digits 2 (day d) +:+ " " +:+ fixed_digits 2 (hour d)
      +:+ ":" +:+ fixed_digits 2 (minute d) +:+ ":" +:+ fixed_digits 2 (second d)
      +:+ "'".

(** The identifiers under which the module registers a class. *)
Definition registered : list (string * pyclass) :=
  [ ("base", BaseEngineSpec); ("postgres", PostgresEngineSpec);
    ("sqlite", SqliteEngineSpec); ("mysql", MySQLEngineSpec);
    ("presto", PrestoEngineSpec); ("mssql", MssqlEngineSpec);
    ("redshift", RedshiftEngineSpec); ("oracle", OracleEngineSpec);
    ("vertica", VerticaEngineSpec) ].

(** The derivation of the millisecond template at the engine registered as [k]: [epoch_to_dttm()] returns a
    template and [epoch_ms_to_dttm()] returns that template with the
    placeholder replaced. *)
Definition epoch_ms_derived_at (k : string) : Prop :=
  exists (cls : pyclass) (tpl : string),
    engines !! k = Some cls /\
    epoch_to_dttm cls = Ok tpl /\
    epoch_ms_to_dttm cls = Ok (PyStr.replace tpl "{col}" "({col}/1000.0)").

(** The pieces of a rendered datetime: [YYYY-MM-DD], [HH:MM:SS], and the
    fraction [.ffffff] that [isoformat] writes for a non-zero microsecond. *)
Definition ymd (d : datetime) : string :=
  fixed_digits 4 (year d) +:+ "-" +:+ fixed_digits 2 (month d)
    +:+ "-" +:+ fixed_digits 2 (day d).

Definition hms (d : datetime) : string :=
  fixed_digits 2 (hour d) +:+ ":" +:+ fixed_digits 2 (minute d)
    +:+ ":" +:+ fixed_digits 2 (second d).

Definition iso_fraction (d : datetime) : string :=
  if microsecond d =? 0 then EmptyString
  else "." +:+ fixed_digits 6 (microsecond d).

(** Whether the rendering of a UTC offset has a fraction of a second. *)
Definition offset_has_fraction (off : option Z) : bool :=
  match off with
  | None => false
  | Some o =>
      let ss := (Z.to_N (Z.abs o) mod 3600000000) mod 60000000 in
      negb (ss mod 1000000 =? 0)
  end.

(** The key under which the comprehension stores a class. *)
Definition engine_key (c : pyclass) : string := default EmptyString (own_engine c).

(** The registry as the comprehension builds it from a given sequence of
    globals. *)
Definition build_engines_from (globals : list (string * gvalue))
  : result (gmap string pyclass) :=
  items ← engines_items globals; Ok (dict_of_items items).

(** Decimal digit characters, and strings all of whose characters pass a
    test. *)
Definition is_digit_char (c : ascii) : bool :=
  let k := N_of_ascii c in ((48 <=? k) && (k <=? 57))%bool.

Fixpoint all_chars (P : ascii -> bool) (s : string) : bool :=
  match s with
  | EmptyString => true
  | String c s' => (P c && all_chars P s')%bool
  end.

Global Instance lazy_string_eq_dec : EqDecision lazy_string.
Proof. solve_decision. Defined.

Global Instance Grain_eq_dec : EqDecision Grain.
Proof. solve_decision. Defined.

(** [col] occurs in [s]. *)
Definition mentions (col s : string) : Prop :=
  exists pre post : string, s = pre +:+ col +:+ post.

(** * Properties *)

(** ** Association lists and the dictionary built from them *)

Section Assoc.
Context {A : Type}.
Implicit Types (l : list (string * A)) (k : string).

Lemma assoc_app l1 l2 k :
  assoc k (l1 ++ l2) =
    match assoc k l1 with
    | Some v => Some v
    | None => assoc k l2
    end.
Proof.
  induction l1 as [|[k' v] l1 IH]; simpl; [done|].
  by destruct (String.eqb k' k).
Qed.

Lemma assoc_Some_elem l k v : assoc k l = Some v -> (k, v) ∈ l.
Proof.
  induction l as [|[k' v'] l IH]; simpl; [done|].
  destruct (String.eqb k' k) eqn:E.
  - apply String.eqb_eq in E. intros [= <-]. subst. apply list_elem_of_here.
  - intros H. apply list_elem_of_further. auto.
Qed.

Lemma assoc_None_keys l k : assoc k l = None -> k ∉ l.*1.
Proof.
  induction l as [|[k' v'] l IH]; simpl.
  - intros _. apply not_elem_of_nil.
  - destruct (String.eqb k' k) eqn:E; [done|].
    apply String.eqb_neq in E. intros H.
    apply not_elem_of_cons. split; [congruence | auto].
Qed.

Lemma assoc_keys_None l k : k ∉ l.*1 -> assoc k l = None.
Proof.
  induction l as [|[k' v'] l IH]; simpl; [done|].
  intros [Hne Hl]%not_elem_of_cons.
  destruct (String.eqb k' k) eqn:E.
  - apply String.eqb_eq in E. congruence.
  - auto.
Qed.
End Assoc.

Lemma foldl_insert_lookup (items : list (string * pyclass))
    (m : gmap string pyclass) (k : string) :
  foldl (fun m kv => <[kv.1 := kv.2]> m) m items !! k =
    match assoc k (reverse items) with
    | Some c => Some c
    | None => m !! k
    end.
Proof.
  revert m. induction items as [|[k' c'] items IH]; intros m; simpl; [done|].
  rewrite IH, reverse_cons, assoc_app. simpl.
  destruct (assoc k (reverse items)); [done|].
  destruct (String.eqb k' k) eqn:E.
  - apply String.eqb_eq in E. subst. by rewrite lookup_insert_eq.
  - apply String.eqb_neq in E. by rewrite lookup_insert_ne.
Qed.

Lemma dict_of_items_lookup (items : list (string * pyclass)) (k : string) :
  dict_of_items items !! k = assoc k (reverse items).
Proof.
  unfold dict_of_items. rewrite foldl_insert_lookup, lookup_empty.
  by destruct (assoc k (reverse items)).
Qed.

(** The comprehension finds the nine classes, in the order of the source. *)
Lemma engines_items_at_load : engines_items module_globals_at_load = Ok registered.
Proof. reflexivity. Qed.

Lemma build_engines_ok : build_engines = Ok engines.
Proof. reflexivity. Qed.

Lemma engines_lookup (k : string) : engines !! k = assoc k (reverse registered).
Proof.
  unfold engines, build_engines. rewrite engines_items_at_load. simpl.
  apply dict_of_items_lookup.
Qed.

Lemma engines_lookup_Some (k : string) (c : pyclass) :
  engines !! k = Some c <-> (k, c) ∈ registered.
Proof.
  rewrite engines_lookup. split.
  - intros H%assoc_Some_elem. by apply elem_of_reverse in H.
  - unfold registered. intros H.
    repeat (apply elem_of_cons in H as [[= -> ->]|H]; [reflexivity|]).
    by apply elem_of_nil in H.
Qed.

Lemma engines_lookup_None (k : string) :
  engines !! k = None <-> k ∉ registered.*1.
Proof.
  rewrite engines_lookup. split.
  - intros H%assoc_None_keys. by rewrite fmap_reverse, elem_of_reverse in H.
  - intros H. apply assoc_keys_None. by rewrite fmap_reverse, elem_of_reverse.
Qed.

(** ** Attribute lookup along the inheritance chain *)

Lemma mro_step (c b : pyclass) :
  base_class c = Some b -> mro c = EngineClass c :: mro b.
Proof. destruct c; intros [= <-]; reflexivity. Qed.

Lemma mro_root (c : pyclass) :
  base_class c = None -> mro c = [EngineClass c; object].
Proof. destruct c; intros [=]; reflexivity. Qed.

Lemma getattr_own {A : Type} (own : pyclass -> option A) (c : pyclass) (a : A) :
  own c = Some a -> getattr own c = Ok a.
Proof.
  intros H. unfold getattr.
  destruct (base_class c) as [b|] eqn:Eb.
  - rewrite (mro_step c b Eb). simpl. by rewrite H.
  - rewrite (mro_root c Eb). simpl. by rewrite H.
Qed.

Lemma getattr_inherited {A : Type} (own : pyclass -> option A) (c b : pyclass) :
  base_class c = Some b -> own c = None -> getattr own c = getattr own b.
Proof.
  intros Eb H. unfold getattr. rewrite (mro_step c b Eb). simpl. by rewrite H.
Qed.

Lemma issubclass_BaseEngineSpec (c : pyclass) : issubclass c BaseEngineSpec = true.
Proof. by destruct c. Qed.

Lemma BaseEngineSpec_in_mro (c : pyclass) : EngineClass BaseEngineSpec ∈ mro c.
Proof.
  apply (bool_decide_unpack _). fold (issubclass c BaseEngineSpec).
  by rewrite issubclass_BaseEngineSpec.
Qed.

(** When [b] is the only class of the chain that binds the attribute, the
    lookup ends at [b]. *)
Lemma first_own_only_at {A : Type} (own : pyclass -> option A)
    (l : list pytype) (b : pyclass) (a : A) :
  (forall c : pyclass, EngineClass c ∈ l -> c <> b -> own c = None) ->
  EngineClass b ∈ l -> own b = Some a -> first_own own l = Ok a.
Proof.
  intros Hnone Hin Hb.
  induction l as [|[c|] l IH]; [by apply elem_of_nil in Hin| |]; simpl.
  - destruct (decide (c = b)) as [->|Hne].
    + by rewrite Hb.
    + rewrite (Hnone c (list_elem_of_here _ _) Hne).
      apply IH.
      * intros c' Hc'. apply Hnone. by apply list_elem_of_further.
      * apply elem_of_cons in Hin as [[= ->]|Hin]; [done | exact Hin].
  - apply IH.
    + intros c' Hc'. apply Hnone. by apply list_elem_of_further.
    + apply elem_of_cons in Hin as [[=]|Hin]. exact Hin.
Qed.

(** Every class takes [epoch_ms_to_dttm] from [BaseEngineSpec]. *)
Lemma epoch_ms_to_dttm_unfold (cls : pyclass) :
  epoch_ms_to_dttm cls =
    (s ← epoch_to_dttm cls; Ok (PyStr.replace s "{col}" "({col}/1000.0)")).
Proof.
  unfold epoch_ms_to_dttm, epoch_to_dttm, BaseEngineSpec_epoch_ms_to_dttm.
  destruct cls; reflexivity.
Qed.

(** ** The registry *)

(** C10. The dictionary [engines] built when the module is loaded has exactly
    the nine keys 'base', 'postgres', 'sqlite', 'mysql', 'presto', 'mssql',
    'redshift', 'oracle' and 'vertica', each bound to its class; 'base' is
    among them and is bound to [BaseEngineSpec], whose [epoch_to_dttm]
    raises [NotImplementedError]. *)
Theorem engines_has_exactly_nine_entries :
  (forall (k : string) (c : pyclass),
     engines !! k = Some c <->
     (k, c) ∈ [ ("base", BaseEngineSpec); ("postgres", PostgresEngineSpec);
                ("sqlite", SqliteEngineSpec); ("mysql", MySQLEngineSpec);
                ("presto", PrestoEngineSpec); ("mssql", MssqlEngineSpec);
                ("redshift", RedshiftEngineSpec); ("oracle", OracleEngineSpec);
                ("vertica", VerticaEngineSpec) ]) /\
  size engines = 9%nat /\
  build_engines = Ok engines /\
  (forall c : pyclass, engine c ≫= getitem engines = Ok c) /\
  getitem engines "base" = Ok BaseEngineSpec /\
  epoch_to_dttm BaseEngineSpec = Raise NotImplementedError.
Proof.
  split; [exact engines_lookup_Some|].
  split; [reflexivity|].
  split; [exact build_engines_ok|].
  split; [intros c; destruct c; reflexivity|].
  split; reflexivity.
Qed.

(** C3, as the specification words it, does not hold: the lookup of the
    unregistered identifier "not_a_real_engine" ends in [KeyError]; no
    exception named UnknownEngineError is raised. *)
Lemma unregistered_lookup_is_not_UnknownEngineError :
  getitem engines "not_a_real_engine" = Raise KeyError /\
  ~ raises (getitem engines "not_a_real_engine") "UnknownEngineError".
Proof.
  split; [reflexivity|].
  intros (e & He & Hn). change (@Raise pyclass KeyError = Raise e) in He.
  injection He as <-. discriminate Hn.
Qed.

(** C3, amended. For every identifier that is none of the nine registered
    keys the dictionary has no entry: [engines[k]] raises [KeyError],
    [engines.get(k)] gives [None], and no class, in particular not
    [BaseEngineSpec], comes out of the dictionary. *)
Theorem unregistered_lookup_raises_KeyError (k : string) :
  k ∉ ["base"; "postgres"; "sqlite"; "mysql"; "presto"; "mssql"; "redshift";
       "oracle"; "vertica"] ->
  getitem engines k = Raise KeyError /\
  dict_get engines k None = None /\
  ~ returns (getitem engines k) /\
  getitem engines k <> Ok BaseEngineSpec.
Proof.
  intros Hk.
  assert (engines !! k = None) as Hnone by (by apply engines_lookup_None).
  unfold getitem, dict_get, returns. rewrite Hnone.
  repeat split; [|done]. by intros [c Hc].
Qed.

Lemma unregistered_lookup_raises_KeyError_witness :
  getitem engines "not_a_real_engine" = Raise KeyError /\
  dict_get engines "not_a_real_engine" None = None /\
  ~ returns (getitem engines "not_a_real_engine") /\
  getitem engines "not_a_real_engine" <> Ok BaseEngineSpec.
Proof.
  apply (unregistered_lookup_raises_KeyError "not_a_real_engine").
  apply (bool_decide_unpack _). vm_compute. exact I.
Defined.

(** ** [epoch_to_dttm] of the base class *)

(** C7. The body of [BaseEngineSpec.epoch_to_dttm] raises
    [NotImplementedError] whatever class it is called through, and so does
    [cls.epoch_to_dttm()] for every class in whose resolution order no class
    but [BaseEngineSpec] binds [epoch_to_dttm]; no template is returned. *)
Theorem base_epoch_to_dttm_raises_NotImplementedError (cls : pyclass) :
  BaseEngineSpec_epoch_to_dttm cls = Raise NotImplementedError /\
  ((forall c : pyclass,
      EngineClass c ∈ mro cls -> c <> BaseEngineSpec ->
      own_epoch_to_dttm c = None) ->
   epoch_to_dttm cls = Raise NotImplementedError /\
   raises (epoch_to_dttm cls) "NotImplementedError" /\
   ~ returns (epoch_to_dttm cls)).
Proof.
  split; [reflexivity|]. intros H.
  assert (epoch_to_dttm cls = Raise NotImplementedError) as E.
  { unfold epoch_to_dttm, getattr.
    rewrite (first_own_only_at own_epoch_to_dttm (mro cls) BaseEngineSpec
               (AClassMethod BaseEngineSpec_epoch_to_dttm));
      [reflexivity | exact H | apply BaseEngineSpec_in_mro | reflexivity]. }
  rewrite E. split; [done|]. split.
  - by exists NotImplementedError.
  - by intros [s Hs].
Qed.

Lemma base_epoch_to_dttm_raises_NotImplementedError_witness :
  epoch_to_dttm BaseEngineSpec = Raise NotImplementedError /\
  raises (epoch_to_dttm BaseEngineSpec) "NotImplementedError" /\
  ~ returns (epoch_to_dttm BaseEngineSpec).
Proof.
  apply (base_epoch_to_dttm_raises_NotImplementedError BaseEngineSpec).
  intros c Hc Hne. vm_compute in Hc.
  apply list_elem_of_In in Hc. simpl in Hc.
  destruct Hc as [Hc|[Hc|[]]]; [|discriminate Hc].
  injection Hc as <-. by destruct Hne.
Defined.

(** ** [convert_dttm] of the mssql class *)

(** C2. [iso] is bound neither in the module nor among the builtins, so
    [MssqlEngineSpec.convert_dttm] raises [NameError] for every target type
    and every datetime, whatever class it is called through; it returns no
    literal. *)
Theorem mssql_convert_dttm_raises_NameError :
  assoc "iso" module_globals = None /\
  PyStr.in_tuple "iso" builtins = false /\
  (forall (cls : pyclass) (target_type : string) (dttm : datetime),
     MssqlEngineSpec_convert_dttm cls target_type dttm = Raise NameError) /\
  (forall (target_type : string) (dttm : datetime),
     convert_dttm MssqlEngineSpec target_type dttm = Raise NameError /\
     raises (convert_dttm MssqlEngineSpec target_type dttm) "NameError" /\
     ~ returns (convert_dttm MssqlEngineSpec target_type dttm)).
Proof.
  split; [reflexivity|]. split; [reflexivity|]. split; [reflexivity|].
  intros target_type dttm.
  change (convert_dttm MssqlEngineSpec target_type dttm)
    with (@Raise string NameError).
  split; [done|]. split.
  - by exists NameError.
  - by intros [s Hs].
Qed.

(** ** Grain catalogs *)

(** C5. The engine 'sqlite' is [SqliteEngineSpec]; its grain named "week"
    with the column expression "ts" gives
    [DATE(ts, -strftime('%w', ts) || ' days')]. *)
Theorem sqlite_week_fragment :
  getitem engines "sqlite" = Ok SqliteEngineSpec /\
  (grains ← time_grains SqliteEngineSpec; Ok (function <$> find_grain "week" grains))
    = Ok (Some "DATE({col}, -strftime('%w', {col}) || ' days')") /\
  grain_fragment SqliteEngineSpec "week" "ts"
    = Some "DATE(ts, -strftime('%w', ts) || ' days')".
Proof. repeat split. Qed.

(** C8. For every class in the registry the names of the grains in
    [time_grains] are pairwise distinct. *)
Theorem registered_grain_names_distinct (k : string) (cls : pyclass) :
  engines !! k = Some cls ->
  exists grains : list Grain,
    time_grains cls = Ok grains /\ NoDup (name <$> grains).
Proof.
  intros _.
  destruct cls; eexists; (split; [reflexivity|]);
    apply (bool_decide_unpack _); vm_compute; exact I.
Qed.

Lemma registered_grain_names_distinct_witness :
  exists grains : list Grain,
    time_grains MssqlEngineSpec = Ok grains /\ NoDup (name <$> grains).
Proof.
  apply (registered_grain_names_distinct "mssql" MssqlEngineSpec).
  vm_compute. reflexivity.
Defined.

(** ** Renderings of datetimes *)

Lemma format_quoted (s : string) :
  PyStr.format "'{}'" [s] [] = Ok ("'" +:+ s +:+ "'").
Proof. reflexivity. Qed.

Lemma append_cons (c : ascii) (s1 s2 : string) :
  String c s1 +:+ s2 = String c (s1 +:+ s2).
Proof. reflexivity. Qed.

Lemma append_nil_l (s : string) : EmptyString +:+ s = s.
Proof. reflexivity. Qed.

Lemma append_assoc (s1 s2 s3 : string) : (s1 +:+ s2) +:+ s3 = s1 +:+ (s2 +:+ s3).
Proof.
  induction s1 as [|c s1 IH]; [done|]. by rewrite !append_cons, IH.
Qed.

Lemma append_length (s1 s2 : string) :
  String.length (s1 +:+ s2) = (String.length s1 + String.length s2)%nat.
Proof.
  induction s1 as [|c s1 IH]; [done|]. rewrite append_cons. simpl. by rewrite IH.
Qed.

Example fixed_digits_pads : fixed_digits 2 7 = "07" /\ fixed_digits 4 2021 = "2021".
Proof. split; reflexivity. Qed.

Lemma fixed_digits_length (w : nat) (n : N) : String.length (fixed_digits w n) = w.
Proof.
  revert n. induction w as [|w IH]; intros n; simpl; [done|].
  rewrite append_length, IH. simpl. lia.
Qed.

(** ** Decimal numerals *)

Lemma decimal_from_acc (fuel : nat) (n : N) (acc : string) :
  PyDatetime.decimal_from fuel n acc
    = PyDatetime.decimal_from fuel n EmptyString +:+ acc.
Proof.
  revert n acc. induction fuel as [|fuel IH]; intros n acc; simpl; [done|].
  destruct (n / 10 =? 0); [done|].
  rewrite (IH _ (String _ acc)), (IH _ (String _ EmptyString)).
  by rewrite append_assoc.
Qed.

Lemma log2_div_10 (n : N) : n / 10 <> 0 -> N.log2 (n / 10) < N.log2 n.
Proof.
  intros Hq.
  assert (10 * (n / 10) <= n) as Hle by (apply N.Div0.mul_div_le).
  remember (n / 10) as q eqn:Eq. clear Eq.
  assert (0 < n) as Hn by lia.
  apply N.log2_lt_pow2; [lia|].
  destruct (N.log2_spec n Hn) as [_ Hlt].
  rewrite N.pow_succ_r' in Hlt.
  remember (2 ^ N.log2 n) as p eqn:Ep. clear Ep. lia.
Qed.

(** Any fuel above the binary logarithm gives the same numeral. *)
Lemma decimal_from_fuel (f1 f2 : nat) (n : N) (acc : string) :
  N.log2 n < N.of_nat f1 -> N.log2 n < N.of_nat f2 ->
  PyDatetime.decimal_from f1 n acc = PyDatetime.decimal_from f2 n acc.
Proof.
  revert f2 n acc. induction f1 as [|f1 IH]; intros f2 n acc H1 H2; [lia|].
  destruct f2 as [|f2]; [lia|]. simpl.
  destruct (n / 10 =? 0) eqn:E; [done|].
  apply N.eqb_neq in E. pose proof (log2_div_10 n E).
  apply IH; lia.
Qed.

Lemma decimal_from_S (fuel : nat) (n : N) (acc : string) :
  PyDatetime.decimal_from (S fuel) n acc =
    if n / 10 =? 0 then String (PyDatetime.digit n) acc
    else PyDatetime.decimal_from fuel (n / 10) (String (PyDatetime.digit n) acc).
Proof. reflexivity. Qed.

Lemma decimal_small (n : N) :
  n < 10 -> PyDatetime.decimal n = String (PyDatetime.digit n) EmptyString.
Proof.
  intros H. unfold PyDatetime.decimal. simpl.
  by rewrite (N.div_small n 10 H).
Qed.

Lemma decimal_step (n : N) :
  10 <= n ->
  PyDatetime.decimal n
    = PyDatetime.decimal (n / 10) +:+ String (PyDatetime.digit n) EmptyString.
Proof.
  intros H. unfold PyDatetime.decimal.
  rewrite (decimal_from_S (N.to_nat (N.log2 n)) n).
  assert (n / 10 <> 0) as Hq.
  { intros Hq. apply N.div_small_iff in Hq; lia. }
  apply N.eqb_neq in Hq as Hq'. rewrite Hq'.
  rewrite decimal_from_acc. f_equal.
  pose proof (log2_div_10 n Hq).
  apply decimal_from_fuel; lia.
Qed.

Lemma zeros_snoc (k : nat) :
  PyDatetime.zeros k +:+ "0" = String "0" (PyDatetime.zeros k).
Proof.
  induction k as [|k IH]; [done|]. simpl PyDatetime.zeros.
  by rewrite append_cons, IH.
Qed.

Lemma fixed_digits_zero (w : nat) : fixed_digits w 0 = PyDatetime.zeros w.
Proof.
  induction w as [|w IH]; [done|].
  change (fixed_digits (S w) 0) with (fixed_digits w 0 +:+ "0").
  by rewrite IH, zeros_snoc.
Qed.

(** A number below [10 ^ w] is rendered by [%0wd] with exactly its [w]
    decimal digits. *)
Lemma zfill_fixed_digits (w : nat) (n : N) :
  n < 10 ^ N.of_nat (S w) -> PyDatetime.zfill (S w) n = fixed_digits (S w) n.
Proof.
  revert n. induction w as [|w IH]; intros n Hn.
  - change (10 ^ N.of_nat 1) with 10 in Hn.
    unfold PyDatetime.zfill. by rewrite (decimal_small n Hn).
  - destruct (N.ltb_spec n 10) as [Hlt|Hge].
    + unfold PyDatetime.zfill. rewrite (decimal_small n Hlt).
      change (fixed_digits (S (S w)) n)
        with (fixed_digits (S w) (n / 10)
              +:+ String (PyDatetime.digit n) EmptyString).
      by rewrite (N.div_small n 10 Hlt), fixed_digits_zero.
    + assert (n / 10 < 10 ^ N.of_nat (S w)) as Hq.
      { apply N.Div0.div_lt_upper_bound.
        rewrite (Nat2N.inj_succ (S w)), N.pow_succ_r' in Hn. lia. }
      change (fixed_digits (S (S w)) n)
        with (fixed_digits (S w) (n / 10)
              +:+ String (PyDatetime.digit n) EmptyString).
      rewrite <- (IH _ Hq). unfold PyDatetime.zfill.
      rewrite (decimal_step n Hge), append_length, append_assoc. simpl String.length.
      by replace (S (S w) - (String.length (PyDatetime.decimal (n / 10)) + 1))%nat
        with (S w - String.length (PyDatetime.decimal (n / 10)))%nat by lia.
Qed.

(** A number of exactly [w] digits is written by [decimal] with these
    digits. *)
Lemma decimal_fixed_digits (w : nat) (n : N) :
  10 ^ N.of_nat w <= n -> n < 10 ^ N.of_nat (S w) ->
  PyDatetime.decimal n = fixed_digits (S w) n.
Proof.
  revert n. induction w as [|w IH]; intros n Hlo Hhi.
  - change (10 ^ N.of_nat 1) with 10 in Hhi. by rewrite (decimal_small n Hhi).
  - rewrite (Nat2N.inj_succ w), N.pow_succ_r' in Hlo.
    rewrite (Nat2N.inj_succ (S w)), N.pow_succ_r' in Hhi.
    remember (10 ^ N.of_nat (S w)) as hi eqn:Ehi.
    remember (10 ^ N.succ (N.of_nat w)) as hi' eqn:Ehi'.
    assert (hi' = hi) as -> by (subst; by rewrite <- Nat2N.inj_succ).
    remember (10 ^ N.of_nat w) as lo eqn:Elo.
    assert (10 <= n) as Hge.
    { assert (lo <> 0) by (subst lo; apply N.pow_nonzero; lia). lia. }
    assert (lo <= n / 10) as Hqlo by (apply N.div_le_lower_bound; lia).
    assert (n / 10 < hi) as Hqhi by (apply N.Div0.div_lt_upper_bound; lia).
    rewrite (decimal_step n Hge).
    change (fixed_digits (S (S w)) n)
      with (fixed_digits (S w) (n / 10)
            +:+ String (PyDatetime.digit n) EmptyString).
    f_equal. apply IH; subst; assumption.
Qed.

Lemma zfill_2_fixed (n : N) : n < 100 -> PyDatetime.zfill 2 n = fixed_digits 2 n.
Proof. intros H. by apply (zfill_fixed_digits 1). Qed.

Lemma zfill_4_fixed (n : N) : n < 10000 -> PyDatetime.zfill 4 n = fixed_digits 4 n.
Proof. intros H. by apply (zfill_fixed_digits 3). Qed.

(** A year of four digits is written by [%Y] with exactly these digits. *)
Lemma decimal_4_fixed (n : N) :
  1000 <= n -> n < 10000 -> PyDatetime.decimal n = fixed_digits 4 n.
Proof. intros Hlo Hhi. by apply (decimal_fixed_digits 3). Qed.

Lemma days_in_month_le_31 (y m : N) : PyDatetime.days_in_month y m <= 31.
Proof.
  unfold PyDatetime.days_in_month.
  repeat match goal with |- context [if ?b then _ else _] => destruct b end; lia.
Qed.

Lemma valid_bounds (d : datetime) :
  PyDatetime.valid d = true ->
  year d < 10000 /\ month d < 100 /\ day d < 100 /\
  hour d < 100 /\ minute d < 100 /\ second d < 100.
Proof.
  unfold PyDatetime.valid. rewrite !andb_true_iff, !N.leb_le, !N.ltb_lt.
  pose proof (days_in_month_le_31 (year d) (month d)). lia.
Qed.

Lemma strftime_fixed (d : datetime) :
  PyDatetime.valid d = true -> 1000 <= year d ->
  "'" +:+ PyDatetime.strftime_Ymd_HMS d +:+ "'" = quoted_timestamp d.
Proof.
  intros (Hy & Hm & Hd & HH & HM & HS)%valid_bounds Hy4.
  unfold PyDatetime.strftime_Ymd_HMS, quoted_timestamp.
  rewrite (decimal_4_fixed _ Hy4 Hy), (zfill_2_fixed _ Hm), (zfill_2_fixed _ Hd),
    (zfill_2_fixed _ HH), (zfill_2_fixed _ HM), (zfill_2_fixed _ HS).
  by rewrite !append_assoc.
Qed.

Lemma quoted_timestamp_length (d : datetime) :
  String.length (quoted_timestamp d) = 21%nat.
Proof.
  unfold quoted_timestamp.
  repeat (rewrite append_length || rewrite fixed_digits_length).
  reflexivity.
Qed.

(** C9, as stated for every datetime, does not hold: [%Y] does not fill the
    year, so for the year 999 the literal is ['999-12-31 23:59:59'], of 20
    characters and not of the form YYYY-MM-DD HH:MM:SS. *)
Lemma base_convert_dttm_year_999_is_not_padded :
  PyDatetime.valid (mk_datetime 999 12 31 23 59 59 0) = true /\
  convert_dttm BaseEngineSpec "DATE" (mk_datetime 999 12 31 23 59 59 0)
    = Ok "'999-12-31 23:59:59'" /\
  convert_dttm BaseEngineSpec "DATE" (mk_datetime 999 12 31 23 59 59 0)
    <> Ok (quoted_timestamp (mk_datetime 999 12 31 23 59 59 0)) /\
  String.length "'999-12-31 23:59:59'" = 20%nat.
Proof.
  split; [reflexivity|]. split; [reflexivity|]. split; [|reflexivity].
  vm_compute. discriminate.
Qed.

(** C9, amended. [BaseEngineSpec.convert_dttm] returns, for every target
    type and every datetime whose year has four digits (1000 to 9999), the
    datetime as YYYY-MM-DD HH:MM:SS (four digits of year, two of every other
    field) between single quotes, 21 characters in all; for every datetime
    the target type has no influence on the result. *)
Theorem base_convert_dttm_quoted_timestamp (target_type : string) (dttm : datetime) :
  (PyDatetime.valid dttm = true -> 1000 <= year dttm ->
   convert_dttm BaseEngineSpec target_type dttm = Ok (quoted_timestamp dttm) /\
   String.length (quoted_timestamp dttm) = 21%nat) /\
  (forall target_type' : string,
     convert_dttm BaseEngineSpec target_type' dttm
       = convert_dttm BaseEngineSpec target_type dttm).
Proof.
  split; [|reflexivity].
  intros Hv Hy. split; [|apply quoted_timestamp_length].
  change (convert_dttm BaseEngineSpec target_type dttm)
    with (PyStr.format "'{}'" [PyDatetime.strftime_Ymd_HMS dttm] []).
  by rewrite format_quoted, strftime_fixed.
Qed.

Lemma base_convert_dttm_quoted_timestamp_witness :
  convert_dttm BaseEngineSpec "DATE" (mk_datetime 2021 1 15 0 0 0 0)
    = Ok "'2021-01-15 00:00:00'" /\
  String.length (quoted_timestamp (mk_datetime 2021 1 15 0 0 0 0)) = 21%nat.
Proof.
  apply (base_convert_dttm_quoted_timestamp "DATE" (mk_datetime 2021 1 15 0 0 0 0)).
  - reflexivity.
  - vm_compute. discriminate.
Defined.

(** ** [convert_dttm] of the mysql class *)

Lemma format_str_to_date (s : string) :
  PyStr.format "STR_TO_DATE('{}', '%Y-%m-%d %H:%i:%s')" [s] []
    = Ok ("STR_TO_DATE('" +:+ s +:+ "', '%Y-%m-%d %H:%i:%s')").
Proof. reflexivity. Qed.

Lemma mysql_convert_dttm_unfold (target_type : string) (dttm : datetime) :
  convert_dttm MySQLEngineSpec target_type dttm =
    if (String.eqb (PyStr.upper target_type) "DATETIME"
        || String.eqb (PyStr.upper target_type) "DATE")%bool
    then Ok ("STR_TO_DATE('" +:+ PyDatetime.strftime_Ymd_HMS dttm
             +:+ "', '%Y-%m-%d %H:%i:%s')")
    else Ok ("'" +:+ PyDatetime.strftime_Ymd_HMS dttm +:+ "'").
Proof.
  change (convert_dttm MySQLEngineSpec target_type dttm)
    with (MySQLEngineSpec_convert_dttm MySQLEngineSpec target_type dttm).
  unfold MySQLEngineSpec_convert_dttm, PyStr.in_tuple. simpl existsb.
  rewrite orb_false_r, format_str_to_date, format_quoted. reflexivity.
Qed.

(** C6. [MySQLEngineSpec.convert_dttm] looks at the target type in upper
    case.  When that is DATE or DATETIME the result is the call
    [STR_TO_DATE('<YYYY-MM-DD HH:MM:SS>', '%Y-%m-%d %H:%i:%s')]; otherwise it
    is the bare quoted literal.  For 2021-01-15 00:00:00 and "DATE" (or
    "date", "DATETIME", "DateTime") it is
    [STR_TO_DATE('2021-01-15 00:00:00', '%Y-%m-%d %H:%i:%s')], and for
    "TIMESTAMP" it is ['2021-01-15 00:00:00']. *)
Theorem mysql_convert_dttm_by_target_type (target_type : string) (dttm : datetime) :
  (PyStr.upper target_type = "DATE" \/ PyStr.upper target_type = "DATETIME" ->
   convert_dttm MySQLEngineSpec target_type dttm
     = Ok ("STR_TO_DATE('" +:+ PyDatetime.strftime_Ymd_HMS dttm
           +:+ "', '%Y-%m-%d %H:%i:%s')")) /\
  (PyStr.upper target_type <> "DATE" -> PyStr.upper target_type <> "DATETIME" ->
   convert_dttm MySQLEngineSpec target_type dttm
     = Ok ("'" +:+ PyDatetime.strftime_Ymd_HMS dttm +:+ "'")) /\
  (forall t : string,
     t ∈ ["DATE"; "date"; "DATETIME"; "DateTime"] ->
     convert_dttm MySQLEngineSpec t (mk_datetime 2021 1 15 0 0 0 0)
       = Ok "STR_TO_DATE('2021-01-15 00:00:00', '%Y-%m-%d %H:%i:%s')") /\
  convert_dttm MySQLEngineSpec "TIMESTAMP" (mk_datetime 2021 1 15 0 0 0 0)
    = Ok "'2021-01-15 00:00:00'".
Proof.
  rewrite mysql_convert_dttm_unfold. repeat split.
  - intros [-> | ->]; reflexivity.
  - intros H1 H2.
    apply String.eqb_neq in H1, H2. by rewrite H1, H2.
  - intros t Ht.
    repeat (apply elem_of_cons in Ht as [->|Ht]; [reflexivity|]).
    by apply elem_of_nil in Ht.
Qed.

Lemma mysql_convert_dttm_by_target_type_witness :
  convert_dttm MySQLEngineSpec "date" (mk_datetime 2021 1 15 0 0 0 0)
    = Ok "STR_TO_DATE('2021-01-15 00:00:00', '%Y-%m-%d %H:%i:%s')" /\
  convert_dttm MySQLEngineSpec "varchar" (mk_datetime 2021 1 15 0 0 0 0)
    = Ok "'2021-01-15 00:00:00'".
Proof.
  split.
  - apply (proj1 (mysql_convert_dttm_by_target_type "date"
                    (mk_datetime 2021 1 15 0 0 0 0))).
    left. vm_compute. reflexivity.
  - apply (proj1 (proj2 (mysql_convert_dttm_by_target_type "varchar"
                           (mk_datetime 2021 1 15 0 0 0 0)))).
    + vm_compute. discriminate.
    + vm_compute. discriminate.
Defined.

(** ** Classes that extend [PostgresEngineSpec] *)

(** C4. A class whose base is [PostgresEngineSpec] and whose body does not
    bind an attribute gets it from [PostgresEngineSpec]: the same catalog of
    grains, hence the same fragment for every grain name and column
    expression, the same [epoch_to_dttm()] and the same
    [convert_dttm(target_type, dttm)].  [RedshiftEngineSpec] and
    [VerticaEngineSpec] bind none of the three; [OracleEngineSpec] binds
    [convert_dttm] only, and its literal differs from that of postgres. *)
Theorem postgres_subclasses_inherit :
  (forall cls : pyclass,
     base_class cls = Some PostgresEngineSpec ->
     (own_time_grains cls = None ->
        time_grains cls = time_grains PostgresEngineSpec /\
        forall grain_name col : string,
          grain_fragment cls grain_name col
            = grain_fragment PostgresEngineSpec grain_name col) /\
     (own_epoch_to_dttm cls = None ->
        epoch_to_dttm cls = epoch_to_dttm PostgresEngineSpec /\
        epoch_ms_to_dttm cls = epoch_ms_to_dttm PostgresEngineSpec) /\
     (own_convert_dttm cls = None ->
        forall (target_type : string) (dttm : datetime),
          convert_dttm cls target_type dttm
            = convert_dttm PostgresEngineSpec target_type dttm)) /\
  (forall cls : pyclass,
     cls ∈ [RedshiftEngineSpec; VerticaEngineSpec] ->
     base_class cls = Some PostgresEngineSpec /\
     own_time_grains cls = None /\
     own_epoch_to_dttm cls = None /\
     own_convert_dttm cls = None) /\
  (base_class OracleEngineSpec = Some PostgresEngineSpec /\
   own_time_grains OracleEngineSpec = None /\
   own_epoch_to_dttm OracleEngineSpec = None /\
   own_convert_dttm OracleEngineSpec = Some OracleEngineSpec_convert_dttm /\
   convert_dttm OracleEngineSpec "DATE" (mk_datetime 2021 1 15 0 0 0 0)
     <> convert_dttm PostgresEngineSpec "DATE" (mk_datetime 2021 1 15 0 0 0 0)).
Proof.
  split; [|split].
  - intros cls Hb. split; [|split].
    + intros Hown.
      assert (time_grains cls = time_grains PostgresEngineSpec) as E
        by (by apply getattr_inherited).
      split; [exact E|]. intros grain_name col.
      unfold grain_fragment. by rewrite E.
    + intros Hown. rewrite !epoch_ms_to_dttm_unfold.
      assert (epoch_to_dttm cls = epoch_to_dttm PostgresEngineSpec) as E
        by (destruct cls; done).
      by rewrite E.
    + intros Hown target_type dttm. destruct cls; done.
  - intros cls Hc.
    repeat (apply elem_of_cons in Hc as [->|Hc]; [done|]).
    by apply elem_of_nil in Hc.
  - repeat split. vm_compute. discriminate.
Qed.

Lemma postgres_subclasses_inherit_witness :
  time_grains RedshiftEngineSpec = time_grains PostgresEngineSpec /\
  grain_fragment VerticaEngineSpec "week" "ts" = Some "DATE_TRUNC('week', ts)" /\
  epoch_to_dttm RedshiftEngineSpec
    = Ok "(timestamp 'epoch' + {col} * interval '1 second')" /\
  convert_dttm VerticaEngineSpec "DATE" (mk_datetime 2021 1 15 0 0 0 0)
    = Ok "'2021-01-15 00:00:00'".
Proof.
  pose proof (proj1 postgres_subclasses_inherit) as H.
  destruct (H RedshiftEngineSpec eq_refl) as (Hg & He & _).
  destruct (H VerticaEngineSpec eq_refl) as (Hg' & _ & Hc').
  split; [exact (proj1 (Hg eq_refl))|].
  split; [exact (proj2 (Hg' eq_refl) "week" "ts")|].
  split; [exact (proj1 (He eq_refl))|].
  exact (Hc' eq_refl "DATE" (mk_datetime 2021 1 15 0 0 0 0)).
Defined.

(** ** [epoch_ms_to_dttm] *)

(** Through [MssqlEngineSpec] the attribute [epoch_to_dttm] is a string, and
    calling it raises [TypeError]. *)
Lemma mssql_epoch_to_dttm_not_callable :
  getattr own_epoch_to_dttm MssqlEngineSpec = Ok (AStr "dateadd(S, {col}, '1970-01-01')") /\
  epoch_to_dttm MssqlEngineSpec = Raise TypeError /\
  epoch_ms_to_dttm MssqlEngineSpec = Raise TypeError.
Proof. repeat split. Qed.

(** C1, as stated for every registered engine, does not hold: for 'base' and
    for 'mssql', both registered, [epoch_ms_to_dttm()] returns no string. *)
Lemma epoch_ms_not_derived_for_base_and_mssql :
  (engines !! "base" = Some BaseEngineSpec /\
   epoch_ms_to_dttm BaseEngineSpec = Raise NotImplementedError /\
   ~ epoch_ms_derived_at "base") /\
  (engines !! "mssql" = Some MssqlEngineSpec /\
   epoch_ms_to_dttm MssqlEngineSpec = Raise TypeError /\
   ~ epoch_ms_derived_at "mssql").
Proof.
  split; (split; [reflexivity|]); (split; [reflexivity|]).
  - intros (cls & tpl & Hk & _ & Hms).
    assert (cls = BaseEngineSpec) as -> by (vm_compute in Hk; congruence).
    discriminate Hms.
  - intros (cls & tpl & Hk & _ & Hms).
    assert (cls = MssqlEngineSpec) as -> by (vm_compute in Hk; congruence).
    discriminate Hms.
Qed.

(** Substituting a column into the millisecond template is substituting the
    column divided by 1000.0 into the seconds template. *)
Lemma replace_col_then_format (cls : pyclass) (tpl col : string) :
  epoch_to_dttm cls = Ok tpl ->
  PyStr.format (PyStr.replace tpl "{col}" "({col}/1000.0)") [] [("col", col)]
    = PyStr.format tpl [] [("col", "(" +:+ col +:+ "/1000.0)")].
Proof.
  destruct cls; intros [= <-]; cbv -[String.append];
    repeat (rewrite append_cons || rewrite append_nil_l || rewrite append_assoc);
    reflexivity.
Qed.

(** C1, amended. For every registered engine whose [epoch_to_dttm()] returns
    a template, [epoch_ms_to_dttm()] returns that template with [{col}]
    replaced by [({col}/1000.0)], so that substituting a column into it is
    substituting the column divided by 1000.0 into the unchanged seconds
    template.  The engines 'postgres', 'sqlite', 'mysql', 'presto',
    'redshift', 'oracle' and 'vertica' are of this kind.  For 'base', where
    [epoch_to_dttm()] raises [NotImplementedError], [epoch_ms_to_dttm()]
    raises it too. *)
Theorem epoch_ms_to_dttm_wraps_seconds_template :
  (forall (k : string) (cls : pyclass) (tpl : string),
     engines !! k = Some cls ->
     epoch_to_dttm cls = Ok tpl ->
     epoch_ms_to_dttm cls = Ok (PyStr.replace tpl "{col}" "({col}/1000.0)") /\
     forall col : string,
       PyStr.format (PyStr.replace tpl "{col}" "({col}/1000.0)") [] [("col", col)]
         = PyStr.format tpl [] [("col", "(" +:+ col +:+ "/1000.0)")]) /\
  (forall k : string,
     k ∈ ["postgres"; "sqlite"; "mysql"; "presto"; "redshift"; "oracle"; "vertica"] ->
     epoch_ms_derived_at k) /\
  epoch_ms_to_dttm BaseEngineSpec = Raise NotImplementedError.
Proof.
  split; [|split].
  - intros k cls tpl _ Htpl. split.
    + by rewrite epoch_ms_to_dttm_unfold, Htpl.
    + intros col. by apply (replace_col_then_format cls).
  - intros k Hk. unfold epoch_ms_derived_at.
    repeat (apply elem_of_cons in Hk as [->|Hk];
            [eexists _, _; split; [reflexivity|]; split; reflexivity|]).
    by apply elem_of_nil in Hk.
  - reflexivity.
Qed.

Lemma epoch_ms_to_dttm_wraps_seconds_template_witness :
  epoch_ms_to_dttm OracleEngineSpec
    = Ok "(timestamp 'epoch' + ({col}/1000.0) * interval '1 second')" /\
  PyStr.format "(timestamp 'epoch' + ({col}/1000.0) * interval '1 second')"
      [] [("col", "ts")]
    = Ok "(timestamp 'epoch' + (ts/1000.0) * interval '1 second')".
Proof.
  destruct (proj1 epoch_ms_to_dttm_wraps_seconds_template "oracle" OracleEngineSpec
              "(timestamp 'epoch' + {col} * interval '1 second')"
              eq_refl eq_refl) as [Hms Hfmt].
  split; [exact Hms|]. exact (Hfmt "ts").
Defined.

(** * Further properties of the module *)

(** ** Attribute resolution *)

Lemma first_own_returns {A : Type} (own : pyclass -> option A)
    (l : list pytype) (b : pyclass) :
  EngineClass b ∈ l -> is_Some (own b) -> returns (first_own own l).
Proof.
  intros Hin [a Ha].
  induction l as [|[c|] l IH]; [by apply elem_of_nil in Hin| |]; simpl.
  - destruct (own c) as [a'|] eqn:Ec; [by exists a'|].
    apply IH. apply elem_of_cons in Hin as [[= ->]|Hin]; [congruence | exact Hin].
  - apply IH. apply elem_of_cons in Hin as [[=]|Hin]. exact Hin.
Qed.

(** X1. An attribute that the body of [BaseEngineSpec] binds is found
    through every class: reading it never ends in [AttributeError]. *)
Theorem getattr_of_base_attribute_returns {A : Type}
    (own : pyclass -> option A) (cls : pyclass) :
  is_Some (own BaseEngineSpec) ->
  returns (getattr own cls) /\ getattr own cls <> Raise AttributeError.
Proof.
  intros Hb.
  destruct (first_own_returns own (mro cls) BaseEngineSpec
              (BaseEngineSpec_in_mro cls) Hb) as [a Ha].
  unfold getattr. rewrite Ha. split; [by exists a | done].
Qed.

Lemma getattr_of_base_attribute_returns_witness :
  returns (getattr own_convert_dttm VerticaEngineSpec) /\
  getattr own_convert_dttm VerticaEngineSpec <> Raise AttributeError.
Proof.
  apply (getattr_of_base_attribute_returns own_convert_dttm VerticaEngineSpec).
  vm_compute. eexists. reflexivity.
Defined.

(** X2. [cls.__mro__] of every class starts with the class itself, goes
    from each class to the base class its header names, reaches
    [BaseEngineSpec] and ends with [object] right after it; it repeats no
    entry and has at most four entries (single inheritance, at most two steps
    below [BaseEngineSpec]). *)
Theorem mro_is_the_chain_to_object (c : pyclass) :
  head (mro c) = Some (EngineClass c) /\
  last (mro c) = Some object /\
  (exists i : nat,
     mro c !! i = Some (EngineClass BaseEngineSpec) /\
     mro c !! S i = Some object /\ length (mro c) = S (S i)) /\
  NoDup (mro c) /\
  (2 <= length (mro c) <= 4)%nat /\
  (forall (i : nat) (a b : pyclass),
     mro c !! i = Some (EngineClass a) -> mro c !! S i = Some (EngineClass b) ->
     base_class a = Some b).
Proof.
  split; [by destruct c|]. split; [by destruct c|].
  split.
  { destruct c;
      first [by exists 0%nat | by exists 1%nat | by exists 2%nat]. }
  split; [destruct c; apply (bool_decide_unpack _); vm_compute; exact I|].
  split; [destruct c; vm_compute; lia|].
  intros i a b Ha Hb.
  destruct c; vm_compute in Ha, Hb;
    repeat (destruct i as [|i]; simpl in Ha, Hb; try discriminate);
    injection Ha as <-; injection Hb as <-; reflexivity.
Qed.

Lemma mro_is_the_chain_to_object_witness :
  base_class OracleEngineSpec = Some PostgresEngineSpec.
Proof.
  destruct (mro_is_the_chain_to_object OracleEngineSpec)
    as (_ & _ & _ & _ & _ & Hstep).
  apply (Hstep 0%nat); reflexivity.
Defined.

(** ** [epoch_to_dttm] and [epoch_ms_to_dttm] *)

(** X3. [epoch_ms_to_dttm] returns exactly when [epoch_to_dttm] returns, and
    raises exactly the exception that [epoch_to_dttm] raises: it adds no
    failure of its own and hides none. *)
Theorem epoch_ms_to_dttm_fails_as_epoch_to_dttm (cls : pyclass) :
  (forall e : exn,
     epoch_ms_to_dttm cls = Raise e <-> epoch_to_dttm cls = Raise e) /\
  (returns (epoch_ms_to_dttm cls) <-> returns (epoch_to_dttm cls)).
Proof.
  rewrite epoch_ms_to_dttm_unfold. unfold returns.
  destruct (epoch_to_dttm cls) as [tpl|e']; simpl; split.
  - intros e. split; discriminate.
  - split; intros _; eauto.
  - intros e. split; intros [= ->]; reflexivity.
  - split; intros [a Ha]; discriminate.
Qed.

(** X4. Through a class for which [epoch_to_dttm] resolves to a plain string
    rather than a method, both [epoch_to_dttm()] and [epoch_ms_to_dttm()]
    raise [TypeError]; the template is only available as the attribute
    itself.  [MssqlEngineSpec] is such a class. *)
Theorem string_epoch_to_dttm_is_not_callable (cls : pyclass) (s : string) :
  getattr own_epoch_to_dttm cls = Ok (AStr s) ->
  epoch_to_dttm cls = Raise TypeError /\
  epoch_ms_to_dttm cls = Raise TypeError.
Proof.
  intros H. assert (epoch_to_dttm cls = Raise TypeError) as E.
  { unfold epoch_to_dttm. by rewrite H. }
  split; [exact E|]. by rewrite epoch_ms_to_dttm_unfold, E.
Qed.

Lemma string_epoch_to_dttm_is_not_callable_witness :
  epoch_to_dttm MssqlEngineSpec = Raise TypeError /\
  epoch_ms_to_dttm MssqlEngineSpec = Raise TypeError.
Proof.
  apply (string_epoch_to_dttm_is_not_callable MssqlEngineSpec
           "dateadd(S, {col}, '1970-01-01')").
  reflexivity.
Defined.

(** X5. No class overrides [extra_table_metadata]: through every class and
    for every table it returns the empty dictionary. *)
Theorem extra_table_metadata_is_empty (cls : pyclass) (table : string) :
  getattr own_extra_table_metadata cls = Ok BaseEngineSpec_extra_table_metadata /\
  extra_table_metadata cls table = Ok ∅.
Proof.
  assert (getattr own_extra_table_metadata cls
            = Ok BaseEngineSpec_extra_table_metadata) as E.
  { unfold getattr.
    apply (first_own_only_at own_extra_table_metadata (mro cls) BaseEngineSpec);
      [by intros [] | apply BaseEngineSpec_in_mro | reflexivity]. }
  split; [exact E|]. unfold extra_table_metadata. by rewrite E.
Qed.

(** ** The registry under other iteration orders *)

Lemma assoc_elem_NoDup {A : Type} (l : list (string * A)) (k : string) (v : A) :
  NoDup l.*1 -> (k, v) ∈ l -> assoc k l = Some v.
Proof.
  induction l as [|[k' v'] l IH]; simpl; intros Hnd Hin.
  - by apply elem_of_nil in Hin.
  - apply NoDup_cons in Hnd as [Hk' Hnd].
    apply elem_of_cons in Hin as [[= -> ->]|Hin].
    + by rewrite String.eqb_refl.
    + destruct (String.eqb k' k) eqn:E; [|by apply IH].
      apply String.eqb_eq in E. subst k'. destruct Hk'.
      apply list_elem_of_fmap. by exists (k, v).
Qed.

(** Without repeated keys the dictionary does not depend on the order of the
    pairs. *)
Lemma dict_of_items_Permutation (l1 l2 : list (string * pyclass)) :
  NoDup l1.*1 -> l1 ≡ₚ l2 -> dict_of_items l1 = dict_of_items l2.
Proof.
  intros Hnd Hp. apply map_eq. intros k. rewrite !dict_of_items_lookup.
  assert (NoDup l2.*1) as Hnd2 by (by rewrite <- Hp).
  destruct (assoc k (reverse l1)) as [c|] eqn:E1.
  - symmetry. apply assoc_elem_NoDup.
    + by rewrite fmap_reverse, reverse_Permutation.
    + apply assoc_Some_elem in E1.
      rewrite elem_of_reverse in E1 |- *. by rewrite <- Hp.
  - symmetry. apply assoc_keys_None. apply assoc_None_keys in E1.
    rewrite fmap_reverse, elem_of_reverse in E1 |- *. by rewrite <- Hp.
Qed.

Lemma engine_is_engine_key (c : pyclass) : engine c = Ok (engine_key c).
Proof. by destruct c. Qed.

Lemma engines_items_fmap (globals : list (string * gvalue)) :
  engines_items globals =
    Ok ((fun c => (engine_key c, c))
          <$> omap (fun kv => engine_spec_class kv.2) globals).
Proof.
  unfold engines_items.
  induction (omap (fun kv => engine_spec_class kv.2) globals) as [|c l IH];
    [reflexivity|].
  simpl. rewrite engine_is_engine_key. simpl.
  change (fix go (l0 : list pyclass) : result (list (string * pyclass)) :=
            match l0 with
            | [] => mret []
            | x :: l1 => y ← (k ← engine x; Ok (k, x)); k ← go l1; mret (y :: k)
            end) with (mapM (fun c => k ← engine c; Ok (k, c))).
  by rewrite IH.
Qed.

(** X6. Every class of the registry is stored under its own [engine]
    attribute, and under no second key. *)
Theorem engines_keys_are_engine_attributes (k : string) (c : pyclass) :
  engines !! k = Some c ->
  engine c = Ok k /\
  forall k' : string, engines !! k' = Some c -> k' = k.
Proof.
  intros Hk. apply engines_lookup_Some in Hk.
  assert (forall k0 c0, (k0, c0) ∈ registered -> k0 = engine_key c0) as Hreg.
  { intros k0 c0 H0. unfold registered in H0.
    repeat (apply elem_of_cons in H0 as [[= -> ->]|H0]; [reflexivity|]).
    by apply elem_of_nil in H0. }
  split.
  - rewrite engine_is_engine_key. by rewrite (Hreg k c Hk).
  - intros k' Hk'. apply engines_lookup_Some in Hk'.
    by rewrite (Hreg k c Hk), (Hreg k' c Hk').
Qed.

Lemma engines_keys_are_engine_attributes_witness :
  engine PrestoEngineSpec = Ok "presto" /\
  forall k' : string, engines !! k' = Some PrestoEngineSpec -> k' = "presto".
Proof.
  apply (engines_keys_are_engine_attributes "presto" PrestoEngineSpec).
  vm_compute. reflexivity.
Defined.

(** X7. The registry does not depend on the order in which
    [globals().values()] yields the module's objects: the comprehension over
    any rearrangement of the globals builds the same dictionary. *)
Theorem engines_independent_of_iteration_order (globals : list (string * gvalue)) :
  globals ≡ₚ module_globals_at_load ->
  build_engines_from globals = Ok engines.
Proof.
  intros Hp. unfold build_engines_from. rewrite engines_items_fmap. simpl.
  f_equal.
  assert (engines = dict_of_items registered) as -> by reflexivity.
  symmetry. apply dict_of_items_Permutation.
  - apply (bool_decide_unpack _). vm_compute. exact I.
  - assert (registered =
              (fun c => (engine_key c, c))
                <$> omap (fun kv => engine_spec_class kv.2) module_globals_at_load)
      as -> by reflexivity.
    by rewrite Hp.
Qed.

Lemma engines_independent_of_iteration_order_witness :
  build_engines_from (reverse module_globals_at_load) = Ok engines.
Proof.
  apply (engines_independent_of_iteration_order (reverse module_globals_at_load)).
  apply reverse_Permutation.
Defined.

(** ** Characters of rendered datetimes *)

Lemma digit_is_digit_char (n : N) : is_digit_char (PyDatetime.digit n) = true.
Proof.
  unfold is_digit_char, PyDatetime.digit.
  pose proof (N.mod_upper_bound n 10) as Hr.
  remember (n mod 10) as r eqn:Er. clear Er.
  rewrite N_ascii_embedding by lia.
  apply andb_true_iff. rewrite !N.leb_le. lia.
Qed.

Lemma all_chars_app (P : ascii -> bool) (s1 s2 : string) :
  all_chars P (s1 +:+ s2) = (all_chars P s1 && all_chars P s2)%bool.
Proof.
  induction s1 as [|c s1 IH]; [done|].
  rewrite append_cons. simpl. by rewrite IH, andb_assoc.
Qed.

Lemma fixed_digits_all_digits (w : nat) (n : N) :
  all_chars is_digit_char (fixed_digits w n) = true.
Proof.
  revert n. induction w as [|w IH]; intros n; [done|].
  simpl fixed_digits. rewrite all_chars_app, IH. simpl.
  by rewrite digit_is_digit_char.
Qed.

Lemma contains_char_app (c : ascii) (s1 s2 : string) :
  PyStr.contains_char c (s1 +:+ s2)
    = (PyStr.contains_char c s1 || PyStr.contains_char c s2)%bool.
Proof.
  induction s1 as [|d s1 IH]; [done|].
  rewrite append_cons. simpl. by rewrite IH, orb_assoc.
Qed.

Lemma contains_char_digits (c : ascii) (s : string) :
  is_digit_char c = false -> all_chars is_digit_char s = true ->
  PyStr.contains_char c s = false.
Proof.
  intros Hc. induction s as [|d s IH]; simpl; [done|].
  intros [Hd Hs]%andb_true_iff. rewrite (IH Hs), orb_false_r.
  destruct (Ascii.eqb_spec c d) as [->|]; [congruence | done].
Qed.

Lemma contains_char_fixed_digits (c : ascii) (w : nat) (n : N) :
  is_digit_char c = false -> PyStr.contains_char c (fixed_digits w n) = false.
Proof.
  intros Hc. apply contains_char_digits; [done | apply fixed_digits_all_digits].
Qed.

(** [replace] with a one-character [old]. *)
Lemma replace_char_cons (a c : ascii) (new s : string) :
  PyStr.replace_from (String a EmptyString) new O (String c s) =
    if Ascii.eqb a c
    then new +:+ PyStr.replace_from (String a EmptyString) new O s
    else String c (PyStr.replace_from (String a EmptyString) new O s).
Proof.
  simpl. unfold PyStr.startswith. simpl.
  destruct (ascii_dec a c) as [->|Hne].
  - rewrite Ascii.eqb_refl. by destruct s.
  - apply Ascii.eqb_neq in Hne. by rewrite Hne.
Qed.

Lemma replace_char_app (a : ascii) (new s1 s2 : string) :
  PyStr.replace_from (String a EmptyString) new O (s1 +:+ s2) =
    PyStr.replace_from (String a EmptyString) new O s1
      +:+ PyStr.replace_from (String a EmptyString) new O s2.
Proof.
  induction s1 as [|c s1 IH]; [done|].
  rewrite append_cons, !replace_char_cons, IH.
  destruct (Ascii.eqb a c); [by rewrite append_assoc | by rewrite append_cons].
Qed.

Lemma replace_char_absent (a : ascii) (new s : string) :
  PyStr.contains_char a s = false ->
  PyStr.replace_from (String a EmptyString) new O s = s.
Proof.
  induction s as [|c s IH]; [done|].
  simpl PyStr.contains_char. intros [Hc Hs]%orb_false_iff.
  by rewrite replace_char_cons, Hc, (IH Hs).
Qed.

Lemma contains_char_ymd (c : ascii) (d : datetime) :
  is_digit_char c = false -> Ascii.eqb c "-" = false ->
  PyStr.contains_char c (ymd d) = false.
Proof.
  intros Hc Hs. unfold ymd.
  rewrite !contains_char_app, !(contains_char_fixed_digits c) by done.
  simpl. by rewrite Hs.
Qed.

Lemma contains_char_hms (c : ascii) (d : datetime) :
  is_digit_char c = false -> Ascii.eqb c ":" = false ->
  PyStr.contains_char c (hms d) = false.
Proof.
  intros Hc Hs. unfold hms.
  rewrite !contains_char_app, !(contains_char_fixed_digits c) by done.
  simpl. by rewrite Hs.
Qed.

Lemma valid_microsecond (d : datetime) :
  PyDatetime.valid d = true -> microsecond d < 1000000.
Proof.
  unfold PyDatetime.valid. rewrite !andb_true_iff, !N.ltb_lt. tauto.
Qed.

Lemma decimal_from_all_digits (fuel : nat) (n : N) (acc : string) :
  all_chars is_digit_char acc = true ->
  all_chars is_digit_char (PyDatetime.decimal_from fuel n acc) = true.
Proof.
  revert n acc. induction fuel as [|fuel IH]; intros n acc Hacc; [done|].
  rewrite decimal_from_S.
  assert (all_chars is_digit_char (String (PyDatetime.digit n) acc) = true) as H.
  { simpl. by rewrite digit_is_digit_char, Hacc. }
  destruct (n / 10 =? 0); [exact H | by apply IH].
Qed.

Lemma zeros_all_digits (k : nat) :
  all_chars is_digit_char (PyDatetime.zeros k) = true.
Proof. induction k as [|k IH]; [done|]. simpl. by rewrite IH. Qed.

Lemma zfill_all_digits (w : nat) (n : N) :
  all_chars is_digit_char (PyDatetime.zfill w n) = true.
Proof.
  unfold PyDatetime.zfill. cbv zeta. rewrite all_chars_app, zeros_all_digits.
  by apply decimal_from_all_digits.
Qed.

Lemma contains_char_zfill (c : ascii) (w : nat) (n : N) :
  is_digit_char c = false -> PyStr.contains_char c (PyDatetime.zfill w n) = false.
Proof.
  intros Hc. apply contains_char_digits; [done | apply zfill_all_digits].
Qed.

(** The rendering of a UTC offset has no [T], and has a point exactly when
    the offset has a fraction of a second. *)
Lemma contains_char_format_offset (off : option Z) :
  PyStr.contains_char "T" (PyDatetime.format_offset off) = false /\
  PyStr.contains_char "." (PyDatetime.format_offset off) = offset_has_fraction off.
Proof.
  destruct off as [o|]; [|done].
  unfold PyDatetime.format_offset, offset_has_fraction. cbv zeta.
  remember ((Z.to_N (Z.abs o) mod 3600000000) mod 60000000) as ss eqn:Ess.
  remember (Z.to_N (Z.abs o) / 3600000000) as hh eqn:Ehh.
  remember ((Z.to_N (Z.abs o) mod 3600000000) / 60000000) as mm eqn:Emm.
  clear Ess Ehh Emm.
  assert (forall c : ascii,
            is_digit_char c = false -> Ascii.eqb c ":" = false ->
            Ascii.eqb c "-" = false -> Ascii.eqb c "+" = false ->
            PyStr.contains_char c
              ((if (o <? 0)%Z then "-" else "+") +:+ PyDatetime.zfill 2 hh
               +:+ ":" +:+ PyDatetime.zfill 2 mm
               +:+ (if ss =? 0 then EmptyString
                    else ":" +:+ PyDatetime.zfill 2 (ss / 1000000)
                         +:+ (if ss mod 1000000 =? 0 then EmptyString
                              else "." +:+ PyDatetime.zfill 6 (ss mod 1000000))))
            = (if ss =? 0 then false
               else if ss mod 1000000 =? 0 then false else Ascii.eqb c ".")) as H.
  { intros c Hd Hcolon Hminus Hplus.
    rewrite !contains_char_app, !(contains_char_zfill c) by done.
    assert (PyStr.contains_char c (if (o <? 0)%Z then "-" else "+") = false) as ->.
    { destruct (o <? 0)%Z; simpl; by rewrite ?Hminus, ?Hplus. }
    assert (PyStr.contains_char c ":" = false) as ->.
    { simpl. by rewrite Hcolon. }
    simpl orb. destruct (ss =? 0); [done|].
    rewrite !contains_char_app, (contains_char_zfill c) by done.
    assert (PyStr.contains_char c ":" = false) as ->.
    { simpl. by rewrite Hcolon. }
    simpl orb. destruct (ss mod 1000000 =? 0); [done|].
    rewrite contains_char_app, (contains_char_zfill c) by done.
    simpl. by rewrite !orb_false_r. }
  split.
  - rewrite (H "T"%char) by done. by repeat destruct (_ =? 0).
  - rewrite (H "."%char) by done.
    destruct (ss =? 0) eqn:E0.
    + apply N.eqb_eq in E0. by subst ss.
    + by destruct (ss mod 1000000 =? 0).
Qed.

(** The shape of [isoformat]. *)
Lemma isoformat_fixed (d : datetime) :
  PyDatetime.valid d = true ->
  PyDatetime.isoformat d
    = ymd d +:+ "T" +:+ hms d +:+ iso_fraction d
      +:+ PyDatetime.format_offset (utcoffset d).
Proof.
  intros Hv. pose proof (valid_microsecond d Hv) as Hus.
  destruct (valid_bounds d Hv) as (Hy & Hm & Hd & HH & HM & HS).
  unfold PyDatetime.isoformat, ymd, hms, iso_fraction.
  rewrite (zfill_4_fixed _ Hy), (zfill_2_fixed _ Hm), (zfill_2_fixed _ Hd),
    (zfill_2_fixed _ HH), (zfill_2_fixed _ HM), (zfill_2_fixed _ HS),
    (zfill_fixed_digits 5 (microsecond d) Hus).
  by rewrite !append_assoc.
Qed.

Lemma ymd_length (d : datetime) : String.length (ymd d) = 10%nat.
Proof.
  unfold ymd. repeat (rewrite append_length || rewrite fixed_digits_length).
  reflexivity.
Qed.

Lemma hms_length (d : datetime) : String.length (hms d) = 8%nat.
Proof.
  unfold hms. repeat (rewrite append_length || rewrite fixed_digits_length).
  reflexivity.
Qed.

(** [isoformat] with the [T] turned into a space, as the sqlite class
    computes it, and whether it has a point. *)
Lemma isoformat_with_space (d : datetime) :
  PyDatetime.valid d = true ->
  PyStr.replace (PyDatetime.isoformat d) "T" " "
    = ymd d +:+ " " +:+ hms d +:+ iso_fraction d
      +:+ PyDatetime.format_offset (utcoffset d) /\
  PyStr.contains_char "."
      (ymd d +:+ " " +:+ hms d +:+ iso_fraction d
       +:+ PyDatetime.format_offset (utcoffset d))
    = (negb (microsecond d =? 0) || offset_has_fraction (utcoffset d))%bool.
Proof.
  intros Hv.
  destruct (contains_char_format_offset (utcoffset d)) as [HT Hdot].
  split.
  - rewrite (isoformat_fixed d Hv). unfold PyStr.replace.
    rewrite !replace_char_app.
    rewrite (replace_char_absent "T" " " (ymd d)) by (by apply contains_char_ymd).
    rewrite (replace_char_absent "T" " " (hms d)) by (by apply contains_char_hms).
    rewrite (replace_char_absent "T" " " (PyDatetime.format_offset (utcoffset d)))
      by exact HT.
    rewrite (replace_char_absent "T" " " (iso_fraction d)); [reflexivity|].
    unfold iso_fraction. destruct (microsecond d =? 0); [done|].
    rewrite contains_char_app. by rewrite contains_char_fixed_digits.
  - rewrite !contains_char_app, Hdot.
    rewrite (contains_char_ymd "." d), (contains_char_hms "." d) by done.
    unfold iso_fraction. destruct (microsecond d =? 0); [done|].
    by rewrite contains_char_app.
Qed.

(** ** [convert_dttm] of the other classes *)

Lemma format_from_iso8601_date (s : string) :
  PyStr.format "from_iso8601_date('{}')" [s] []
    = Ok ("from_iso8601_date('" +:+ s +:+ "')").
Proof. reflexivity. Qed.

Lemma format_to_timestamp (s : string) :
  PyStr.format ("TO_TIMESTAMP('{}', 'YYYY-MM-DD" +:+ String dquote "T"
                +:+ String dquote "HH24:MI:SS.ff6')") [s] []
    = Ok ("TO_TIMESTAMP('" +:+ s +:+ "', 'YYYY-MM-DD" +:+ String dquote "T"
          +:+ String dquote "HH24:MI:SS.ff6')").
Proof. reflexivity. Qed.

Lemma sqlite_convert_dttm_unfold (target_type : string) (dttm : datetime) :
  convert_dttm SqliteEngineSpec target_type dttm =
    let iso := PyStr.replace (PyDatetime.isoformat dttm) "T" " " in
    Ok ("'" +:+ (if negb (PyStr.contains_char "." iso)
                 then iso +:+ ".000000" else iso) +:+ "'").
Proof.
  change (convert_dttm SqliteEngineSpec target_type dttm)
    with (SqliteEngineSpec_convert_dttm SqliteEngineSpec target_type dttm).
  unfold SqliteEngineSpec_convert_dttm. by rewrite format_quoted.
Qed.

Lemma presto_convert_dttm_unfold (target_type : string) (dttm : datetime) :
  convert_dttm PrestoEngineSpec target_type dttm =
    if (String.eqb (PyStr.upper target_type) "DATE"
        || String.eqb (PyStr.upper target_type) "DATETIME")%bool
    then Ok ("from_iso8601_date('" +:+ PyDatetime.isoformat dttm +:+ "')")
    else Ok ("'" +:+ PyDatetime.strftime_Ymd_HMS dttm +:+ "'").
Proof.
  change (convert_dttm PrestoEngineSpec target_type dttm)
    with (PrestoEngineSpec_convert_dttm PrestoEngineSpec target_type dttm).
  unfold PrestoEngineSpec_convert_dttm, PyStr.in_tuple. simpl existsb.
  rewrite orb_false_r, format_from_iso8601_date, format_quoted. reflexivity.
Qed.

Lemma oracle_convert_dttm_unfold (target_type : string) (dttm : datetime) :
  convert_dttm OracleEngineSpec target_type dttm =
    Ok ("TO_TIMESTAMP('" +:+ PyDatetime.isoformat dttm +:+ "', 'YYYY-MM-DD"
        +:+ String dquote "T" +:+ String dquote "HH24:MI:SS.ff6')").
Proof.
  change (convert_dttm OracleEngineSpec target_type dttm)
    with (OracleEngineSpec_convert_dttm OracleEngineSpec target_type dttm).
  unfold OracleEngineSpec_convert_dttm. by rewrite format_to_timestamp.
Qed.

Lemma append_nil_r (s : string) : s +:+ EmptyString = s.
Proof. induction s as [|c s IH]; [done|]. by rewrite append_cons, IH. Qed.

(** X9. [SqliteEngineSpec.convert_dttm] ignores the target type.  For a
    naive datetime it returns the quoted text [YYYY-MM-DD HH:MM:SS.ffffff],
    28 characters: a space where [isoformat] has [T], and always six digits
    of microseconds, [000000] when the microsecond field is zero.  For an
    aware datetime the UTC offset follows the time and its fraction, and
    [.000000] is appended after the offset when neither the microsecond
    field nor the offset has a fraction. *)
Theorem sqlite_convert_dttm_has_six_fraction_digits
    (target_type : string) (dttm : datetime) :
  (PyDatetime.valid dttm = true ->
   convert_dttm SqliteEngineSpec target_type dttm
     = Ok ("'" +:+ ymd dttm +:+ " " +:+ hms dttm +:+ iso_fraction dttm
           +:+ PyDatetime.format_offset (utcoffset dttm)
           +:+ (if ((microsecond dttm =? 0)
                    && negb (offset_has_fraction (utcoffset dttm)))%bool
                then ".000000" else EmptyString)
           +:+ "'") /\
   (utcoffset dttm = None ->
    convert_dttm SqliteEngineSpec target_type dttm
      = Ok ("'" +:+ ymd dttm +:+ " " +:+ hms dttm +:+ "."
            +:+ fixed_digits 6 (microsecond dttm) +:+ "'") /\
    String.length ("'" +:+ ymd dttm +:+ " " +:+ hms dttm +:+ "."
                   +:+ fixed_digits 6 (microsecond dttm) +:+ "'") = 28%nat)) /\
  (forall target_type' : string,
     convert_dttm SqliteEngineSpec target_type' dttm
       = convert_dttm SqliteEngineSpec target_type dttm).
Proof.
  split; [|reflexivity]. intros Hv.
  assert (convert_dttm SqliteEngineSpec target_type dttm
     = Ok ("'" +:+ ymd dttm +:+ " " +:+ hms dttm +:+ iso_fraction dttm
           +:+ PyDatetime.format_offset (utcoffset dttm)
           +:+ (if ((microsecond dttm =? 0)
                    && negb (offset_has_fraction (utcoffset dttm)))%bool
                then ".000000" else EmptyString)
           +:+ "'")) as E.
  { rewrite sqlite_convert_dttm_unfold. cbv zeta.
    destruct (isoformat_with_space dttm Hv) as [-> ->].
    destruct (microsecond dttm =? 0), (offset_has_fraction (utcoffset dttm));
      simpl negb; simpl orb; simpl andb; cbv iota;
      by rewrite ?append_assoc, ?append_nil_l. }
  split; [exact E|]. intros Hnaive. split.
  - rewrite E, Hnaive. unfold iso_fraction. simpl offset_has_fraction.
    simpl PyDatetime.format_offset.
    destruct (microsecond dttm =? 0) eqn:E0.
    + apply N.eqb_eq in E0. rewrite E0. reflexivity.
    + simpl andb. cbv iota. by rewrite ?append_assoc, ?append_nil_l.
  - repeat (rewrite append_length || rewrite fixed_digits_length
            || rewrite ymd_length || rewrite hms_length).
    reflexivity.
Qed.

Lemma sqlite_convert_dttm_has_six_fraction_digits_witness :
  convert_dttm SqliteEngineSpec "DATE" (mk_datetime 2021 1 15 0 0 0 0)
    = Ok "'2021-01-15 00:00:00.000000'" /\
  convert_dttm SqliteEngineSpec "DATE" (mk_datetime 1999 12 31 23 59 58 1230)
    = Ok "'1999-12-31 23:59:58.001230'" /\
  convert_dttm SqliteEngineSpec "DATE"
      (make_datetime 2021 1 15 0 0 0 0 (Some 0%Z))
    = Ok "'2021-01-15 00:00:00+00:00.000000'".
Proof.
  split; [|split].
  - apply (proj1 (sqlite_convert_dttm_has_six_fraction_digits "DATE"
                    (mk_datetime 2021 1 15 0 0 0 0))); reflexivity.
  - apply (proj1 (sqlite_convert_dttm_has_six_fraction_digits "DATE"
                    (mk_datetime 1999 12 31 23 59 58 1230))); reflexivity.
  - apply (proj1 (proj1 (sqlite_convert_dttm_has_six_fraction_digits "DATE"
                           (make_datetime 2021 1 15 0 0 0 0 (Some 0%Z)))
                    eq_refl)).
Defined.

(** X10. [PrestoEngineSpec.convert_dttm] looks at the target type in upper
    case.  For DATE and DATETIME it returns
    [from_iso8601_date('<isoformat>')], whose argument is the whole
    timestamp [YYYY-MM-DDTHH:MM:SS], with [.ffffff] when the microsecond
    field is not zero and with the UTC offset when the datetime is aware;
    for any other target type it returns the quoted result of [strftime],
    which is [YYYY-MM-DD HH:MM:SS] when the year has four digits. *)
Theorem presto_convert_dttm_by_target_type (target_type : string) (dttm : datetime) :
  (PyStr.upper target_type = "DATE" \/ PyStr.upper target_type = "DATETIME" ->
   convert_dttm PrestoEngineSpec target_type dttm
     = Ok ("from_iso8601_date('" +:+ PyDatetime.isoformat dttm +:+ "')") /\
   (PyDatetime.valid dttm = true ->
    convert_dttm PrestoEngineSpec target_type dttm
      = Ok ("from_iso8601_date('" +:+ ymd dttm +:+ "T" +:+ hms dttm
            +:+ iso_fraction dttm
            +:+ PyDatetime.format_offset (utcoffset dttm) +:+ "')"))) /\
  (PyStr.upper target_type <> "DATE" -> PyStr.upper target_type <> "DATETIME" ->
   convert_dttm PrestoEngineSpec target_type dttm
     = Ok ("'" +:+ PyDatetime.strftime_Ymd_HMS dttm +:+ "'") /\
   (PyDatetime.valid dttm = true -> 1000 <= year dttm ->
    convert_dttm PrestoEngineSpec target_type dttm = Ok (quoted_timestamp dttm))).
Proof.
  rewrite presto_convert_dttm_unfold. split.
  - intros H.
    assert ((String.eqb (PyStr.upper target_type) "DATE"
             || String.eqb (PyStr.upper target_type) "DATETIME")%bool = true) as ->.
    { destruct H as [-> | ->]; reflexivity. }
    split; [done|]. intros Hv.
    by rewrite (isoformat_fixed dttm Hv), !append_assoc.
  - intros H1 H2. apply String.eqb_neq in H1, H2. rewrite H1, H2. simpl.
    split; [done|]. intros Hv Hy. by rewrite (strftime_fixed dttm Hv Hy).
Qed.

Lemma presto_convert_dttm_by_target_type_witness :
  convert_dttm PrestoEngineSpec "date" (mk_datetime 2021 1 15 0 0 0 0)
    = Ok "from_iso8601_date('2021-01-15T00:00:00')" /\
  convert_dttm PrestoEngineSpec "timestamp" (mk_datetime 2021 1 15 0 0 0 0)
    = Ok "'2021-01-15 00:00:00'".
Proof.
  split.
  - apply (proj1 (presto_convert_dttm_by_target_type "date"
                    (mk_datetime 2021 1 15 0 0 0 0))).
    + left. vm_compute. reflexivity.
    + reflexivity.
  - apply (proj2 (presto_convert_dttm_by_target_type "timestamp"
                    (mk_datetime 2021 1 15 0 0 0 0))).
    + vm_compute. discriminate.
    + vm_compute. discriminate.
    + reflexivity.
    + vm_compute. discriminate.
Defined.

(** X11. [OracleEngineSpec.convert_dttm] ignores the target type and returns
    [TO_TIMESTAMP('<isoformat>', 'YYYY-MM-DD"T"HH24:MI:SS.ff6')].  The text
    between the first quotes is [YYYY-MM-DDTHH:MM:SS] followed by [.ffffff]
    only when the microsecond field is not zero (and by the UTC offset of an
    aware datetime): for a whole second the literal carries no fraction
    although the mask names one. *)
Theorem oracle_convert_dttm_shape (target_type : string) (dttm : datetime) :
  (forall target_type' : string,
     convert_dttm OracleEngineSpec target_type' dttm
       = convert_dttm OracleEngineSpec target_type dttm) /\
  (PyDatetime.valid dttm = true ->
   (microsecond dttm = 0 ->
    convert_dttm OracleEngineSpec target_type dttm
      = Ok ("TO_TIMESTAMP('" +:+ ymd dttm +:+ "T" +:+ hms dttm
            +:+ PyDatetime.format_offset (utcoffset dttm)
            +:+ "', 'YYYY-MM-DD" +:+ String dquote "T"
            +:+ String dquote "HH24:MI:SS.ff6')")) /\
   (microsecond dttm <> 0 ->
    convert_dttm OracleEngineSpec target_type dttm
      = Ok ("TO_TIMESTAMP('" +:+ ymd dttm +:+ "T" +:+ hms dttm +:+ "."
            +:+ fixed_digits 6 (microsecond dttm)
            +:+ PyDatetime.format_offset (utcoffset dttm)
            +:+ "', 'YYYY-MM-DD" +:+ String dquote "T"
            +:+ String dquote "HH24:MI:SS.ff6')"))).
Proof.
  split; [reflexivity|]. intros Hv.
  rewrite oracle_convert_dttm_unfold, (isoformat_fixed dttm Hv).
  unfold iso_fraction. split.
  - intros ->. simpl (0 =? 0). by rewrite !append_assoc.
  - intros Hne. apply N.eqb_neq in Hne. rewrite Hne. by rewrite !append_assoc.
Qed.

Lemma oracle_convert_dttm_shape_witness :
  convert_dttm OracleEngineSpec "DATE" (mk_datetime 2021 1 15 0 0 0 0)
    = Ok ("TO_TIMESTAMP('2021-01-15T00:00:00', 'YYYY-MM-DD" +:+ String dquote "T"
          +:+ String dquote "HH24:MI:SS.ff6')") /\
  convert_dttm OracleEngineSpec "DATE" (mk_datetime 2021 1 15 0 0 0 250)
    = Ok ("TO_TIMESTAMP('2021-01-15T00:00:00.000250', 'YYYY-MM-DD"
          +:+ String dquote "T" +:+ String dquote "HH24:MI:SS.ff6')").
Proof.
  split.
  - apply (proj2 (oracle_convert_dttm_shape "DATE" (mk_datetime 2021 1 15 0 0 0 0)));
      reflexivity.
  - apply (proj2 (oracle_convert_dttm_shape "DATE" (mk_datetime 2021 1 15 0 0 0 250)));
      [reflexivity | vm_compute; discriminate].
Defined.

(** X12. Where a class has no rendering of its own to apply, the literal is
    the one of [BaseEngineSpec]: [PostgresEngineSpec], [RedshiftEngineSpec]
    and [VerticaEngineSpec] return it for every target type, and
    [MySQLEngineSpec] and [PrestoEngineSpec] for every target type that is
    not DATE or DATETIME in upper case. *)
Theorem convert_dttm_falls_back_to_base_literal
    (cls : pyclass) (target_type : string) (dttm : datetime) :
  (cls ∈ [PostgresEngineSpec; RedshiftEngineSpec; VerticaEngineSpec] ->
   convert_dttm cls target_type dttm
     = convert_dttm BaseEngineSpec target_type dttm) /\
  (cls ∈ [MySQLEngineSpec; PrestoEngineSpec] ->
   PyStr.upper target_type <> "DATE" -> PyStr.upper target_type <> "DATETIME" ->
   convert_dttm cls target_type dttm
     = convert_dttm BaseEngineSpec target_type dttm).
Proof.
  split.
  - intros Hc.
    repeat (apply elem_of_cons in Hc as [->|Hc]; [reflexivity|]).
    by apply elem_of_nil in Hc.
  - intros Hc H1 H2. apply String.eqb_neq in H1, H2.
    change (convert_dttm BaseEngineSpec target_type dttm)
      with (PyStr.format "'{}'" [PyDatetime.strftime_Ymd_HMS dttm] []).
    rewrite format_quoted.
    apply elem_of_cons in Hc as [->|Hc].
    { by rewrite mysql_convert_dttm_unfold, H1, H2. }
    apply elem_of_cons in Hc as [->|Hc].
    { by rewrite presto_convert_dttm_unfold, H1, H2. }
    by apply elem_of_nil in Hc.
Qed.

Lemma convert_dttm_falls_back_to_base_literal_witness :
  convert_dttm VerticaEngineSpec "DATE" (mk_datetime 2021 1 15 0 0 0 0)
    = convert_dttm BaseEngineSpec "DATE" (mk_datetime 2021 1 15 0 0 0 0) /\
  convert_dttm PrestoEngineSpec "varchar" (mk_datetime 2021 1 15 0 0 0 0)
    = convert_dttm BaseEngineSpec "varchar" (mk_datetime 2021 1 15 0 0 0 0).
Proof.
  split.
  - apply (proj1 (convert_dttm_falls_back_to_base_literal VerticaEngineSpec "DATE"
                    (mk_datetime 2021 1 15 0 0 0 0))).
    apply (bool_decide_unpack _). vm_compute. exact I.
  - apply (proj2 (convert_dttm_falls_back_to_base_literal PrestoEngineSpec "varchar"
                    (mk_datetime 2021 1 15 0 0 0 0))).
    + apply (bool_decide_unpack _). vm_compute. exact I.
    + vm_compute. discriminate.
    + vm_compute. discriminate.
Defined.


(** ** Grain catalogs and [str.format] *)

Lemma mentions_here (col post : string) : mentions col (col +:+ post).
Proof. by exists EmptyString, post. Qed.

Lemma mentions_cons (c : ascii) (col s : string) :
  mentions col s -> mentions col (String c s).
Proof. intros (pre & post & ->). by exists (String c pre), post. Qed.

(** X14. Every template of every catalog is a format string with [col] as
    its only field: substituting any column expression for [col] succeeds,
    and the fragment it gives contains that expression. *)
Theorem grain_templates_accept_any_column
    (cls : pyclass) (grains : list Grain) (g : Grain) (col : string) :
  time_grains cls = Ok grains -> g ∈ grains ->
  exists frag : string,
    PyStr.format (function g) [] [("col", col)] = Ok frag /\ mentions col frag.
Proof.
  intros H Hg.
  destruct cls; vm_compute in H; injection H as <-;
    repeat (apply elem_of_cons in Hg as [->|Hg];
            [eexists; split;
               [cbv -[String.append]; reflexivity
               |repeat apply mentions_cons; apply mentions_here]|]);
    by apply elem_of_nil in Hg.
Qed.

Lemma grain_templates_accept_any_column_witness :
  exists frag : string,
    PyStr.format "date_trunc('quarter', CAST({col} AS TIMESTAMP))" []
        [("col", "created_at")] = Ok frag /\
    mentions "created_at" frag.
Proof.
  apply (grain_templates_accept_any_column PrestoEngineSpec
           PrestoEngineSpec_time_grains
           (mkGrain "quarter" (lazy_gettext "quarter")
              "date_trunc('quarter', CAST({col} AS TIMESTAMP))")
           "created_at").
  - reflexivity.
  - apply (bool_decide_unpack _). vm_compute. exact I.
Defined.

(** X15. The catalog of [BaseEngineSpec] is empty.  Every other catalog
    starts with the grain "Time Column", whose template is the bare
    placeholder, so that it gives back the column expression unchanged; and
    in every catalog the label of a grain is the lazy translation of its
    name. *)
Theorem grain_catalogs_start_with_time_column
    (cls : pyclass) (grains : list Grain) :
  time_grains cls = Ok grains ->
  (cls = BaseEngineSpec <-> grains = []) /\
  (cls <> BaseEngineSpec ->
   head grains
     = Some (mkGrain "Time Column" (lazy_gettext "Time Column") "{col}")) /\
  (forall col : string, PyStr.format "{col}" [] [("col", col)] = Ok col) /\
  (forall g : Grain, g ∈ grains -> label g = lazy_gettext (name g)).
Proof.
  intros H. split; [|split; [|split]].
  - destruct cls; vm_compute in H; injection H as <-; split; try done.
  - intros Hne. destruct cls; try done; vm_compute in H; by injection H as <-.
  - intros col. cbv -[String.append]. by rewrite append_nil_r.
  - intros g Hg.
    destruct cls; vm_compute in H; injection H as <-;
      repeat (apply elem_of_cons in Hg as [->|Hg]; [reflexivity|]);
      by apply elem_of_nil in Hg.
Qed.

Lemma grain_catalogs_start_with_time_column_witness :
  head MssqlEngineSpec_time_grains
    = Some (mkGrain "Time Column" (lazy_gettext "Time Column") "{col}").
Proof.
  apply (grain_catalogs_start_with_time_column MssqlEngineSpec
           MssqlEngineSpec_time_grains); [reflexivity | discriminate].
Defined.

(** ** Epoch templates and [str.format] *)

Lemma epoch_template_accepts_any_column (cls : pyclass) (tpl col : string) :
  epoch_to_dttm cls = Ok tpl ->
  exists frag : string,
    PyStr.format tpl [] [("col", col)] = Ok frag /\ mentions col frag.
Proof.
  destruct cls; intros [= <-]; eexists;
    (split; [cbv -[String.append]; reflexivity
            |repeat apply mentions_cons; apply mentions_here]).
Qed.

(** X16. Whatever template [epoch_to_dttm()] or [epoch_ms_to_dttm()]
    returns takes any column expression: the substitution succeeds, the
    fragment of the seconds template contains the column expression, and the
    fragment of the millisecond template contains it divided by 1000.0
    between parentheses. *)
Theorem epoch_templates_accept_any_column (cls : pyclass) (tpl col : string) :
  (epoch_to_dttm cls = Ok tpl ->
   exists frag : string,
     PyStr.format tpl [] [("col", col)] = Ok frag /\ mentions col frag) /\
  (epoch_ms_to_dttm cls = Ok tpl ->
   exists frag : string,
     PyStr.format tpl [] [("col", col)] = Ok frag /\
     mentions ("(" +:+ col +:+ "/1000.0)") frag).
Proof.
  split; [apply epoch_template_accepts_any_column|].
  rewrite epoch_ms_to_dttm_unfold.
  destruct (epoch_to_dttm cls) as [tpl0|e] eqn:E; [|discriminate].
  intros H.
  assert (tpl = PyStr.replace tpl0 "{col}" "({col}/1000.0)") as ->
    by (injection H as <-; reflexivity).
  rewrite (replace_col_then_format cls tpl0 col E).
  by apply (epoch_template_accepts_any_column cls).
Qed.

Lemma epoch_templates_accept_any_column_witness :
  (exists frag : string,
     PyStr.format "datetime({col}, 'unixepoch')" [] [("col", "ts")] = Ok frag /\
     mentions "ts" frag) /\
  (exists frag : string,
     PyStr.format "datetime(({col}/1000.0), 'unixepoch')" [] [("col", "ts")]
       = Ok frag /\
     mentions "(ts/1000.0)" frag).
Proof.
  split.
  - apply (proj1 (epoch_templates_accept_any_column SqliteEngineSpec
                    "datetime({col}, 'unixepoch')" "ts")).
    reflexivity.
  - apply (proj2 (epoch_templates_accept_any_column SqliteEngineSpec
                    "datetime(({col}/1000.0), 'unixepoch')" "ts")).
    reflexivity.
Defined.

(** ** Letter case of the target type *)

(** The target type with the dotless i, U+0131, whose upper case is the
    letter I. *)
Example upper_of_dotless_i :
  PyStr.upper ("datet" +:+ String (ascii_of_N 196)
                 (String (ascii_of_N 177) "me")) = "DATETIME" /\
  PyStr.upper "dateTime" = "DATETIME" /\
  PyStr.upper "varchar(10)" = "VARCHAR(10)".
Proof. repeat split; vm_compute; reflexivity. Qed.


